(** * Lab-0: serial acquisition and RC step-response overlay

    A shallow embedding of [plot_example] from [src/main (1).py] and the
    properties of its acquisition loop and of its theoretical curve.

    Conventions of the model:
    - [bytes] are lists of [Byte.byte]; a decoded Python [str] is the list of
      its Unicode code points ([N]);
    - the value returned by [float(text)] is kept as the exact decimal the
      text denotes (sign, coefficient, power of ten); rounding to binary64 is
      not modelled;
    - the floats of the theoretical curve are real numbers ([R]); rounding is
      not modelled there either, but [ZeroDivisionError] and the
      [OverflowError] of [math.exp] are;
    - the function's locals and the outside world (serial port, console,
      plot axes) live in one [state], threaded by a state-and-exception
      monad; [while] takes fuel, and a run that exhausts it is [Unfinished];
    - faults of the serial link are a parameter of the functions that use
      the port ([Serial.link]); the names without [_on] are the functions
      on a link that holds;
    - returning from [plot_example] releases the local connection, as
      CPython's finaliser does; an exception leaving it does not. *)

From Stdlib Require Import ZArith NArith QArith List String Ascii Bool Lia.
From Stdlib Require Import Reals Lra.
Import ListNotations.

Abbreviation real := R (only parsing).

(** ** Text: bytes, code points, [decode], [strip], [split] *)

Module Text.
Local Open Scope N_scope.

Abbreviation bytes := (list Byte.byte).
Abbreviation str := (list N).

(** A bytes literal, [b"..."] in the source. *)
Definition b (s : string) : bytes := list_byte_of_string s.

(** A str literal: ASCII text as code points. *)
Definition text (s : string) : str := map Byte.to_N (list_byte_of_string s).

Definition continuation (x : N) : bool := (0x80 <=? x) && (x <=? 0xBF).

(** The payload bits of a continuation byte. *)
Definition low6 (x : N) : N := N.land x 0x3F.

(** A decoded scalar value must be the shortest encoding, not a surrogate,
    and at most U+10FFFF. *)
Definition scalar_ok (lo cp : N) : bool :=
  (lo <=? cp) && (cp <=? 0x10FFFF) && negb ((0xD800 <=? cp) && (cp <=? 0xDFFF)).

(** [utf8 bs]: strict UTF-8 decoding of byte values; [None] where
    [bytes.decode('utf-8')] raises [UnicodeDecodeError]. *)
Fixpoint utf8 (bs : list N) : option str :=
  match bs with
  | [] => Some []
  | b0 :: r0 =>
    if b0 <? 0x80 then option_map (cons b0) (utf8 r0)
    else if (0xC0 <=? b0) && (b0 <? 0xE0) then
      match r0 with
      | b1 :: r1 =>
        let cp := N.shiftl (N.land b0 0x1F) 6 + low6 b1 in
        if continuation b1 && scalar_ok 0x80 cp
        then option_map (cons cp) (utf8 r1) else None
      | _ => None
      end
    else if (0xE0 <=? b0) && (b0 <? 0xF0) then
      match r0 with
      | b1 :: b2 :: r2 =>
        let cp := N.shiftl (N.land b0 0x0F) 12 + N.shiftl (low6 b1) 6 + low6 b2 in
        if continuation b1 && continuation b2 && scalar_ok 0x800 cp
        then option_map (cons cp) (utf8 r2) else None
      | _ => None
      end
    else if (0xF0 <=? b0) && (b0 <? 0xF8) then
      match r0 with
      | b1 :: b2 :: b3 :: r3 =>
        let cp := N.shiftl (N.land b0 0x07) 18 + N.shiftl (low6 b1) 12
                  + N.shiftl (low6 b2) 6 + low6 b3 in
        if continuation b1 && continuation b2 && continuation b3
           && scalar_ok 0x10000 cp
        then option_map (cons cp) (utf8 r3) else None
      | _ => None
      end
    else None
  end.

(** [data.decode('utf-8')] *)
Definition decode (bs : bytes) : option str := utf8 (map Byte.to_N bs).

(** [str.isspace] for one character: the code points CPython's
    [_PyUnicode_IsWhitespace] accepts. *)
Definition isspace (c : N) : bool :=
  ((0x09 <=? c) && (c <=? 0x0D)) || ((0x1C <=? c) && (c <=? 0x20))
  || (c =? 0x85) || (c =? 0xA0) || (c =? 0x1680)
  || ((0x2000 <=? c) && (c <=? 0x200A))
  || (c =? 0x2028) || (c =? 0x2029) || (c =? 0x202F) || (c =? 0x205F)
  || (c =? 0x3000).

Fixpoint lstrip (p : N -> bool) (s : str) : str :=
  match s with
  | c :: r => if p c then lstrip p r else s
  | [] => []
  end.

Definition rstrip (p : N -> bool) (s : str) : str := rev (lstrip p (rev s)).

(** [s.strip()] *)
Definition strip (s : str) : str := rstrip isspace (lstrip isspace s).

(** [s.split(sep)] for a one-character separator: always at least one
    field, empty fields are kept. *)
Fixpoint split (sep : N) (s : str) : list str :=
  match s with
  | [] => [[]]
  | c :: r =>
    if c =? sep then [] :: split sep r
    else match split sep r with
         | f :: fs => (c :: f) :: fs
         | [] => [[c]]
         end
  end.

Definition comma : N := 44.

End Text.

(** ** [float(text)] *)

Module PyFloat.
Import Text.
Local Open Scope N_scope.

(** The result of [float(text)]: the decimal [(-1)^neg * coeff * 10^exp10]
    the text denotes (Python rounds it to the nearest binary64), or an
    infinity, or a NaN. *)
Inductive pyfloat : Type :=
| Dec (neg : bool) (coeff : N) (exp10 : Z)
| Inf (neg : bool)
| NaN.

(** The exact rational value of a finite result, in lowest terms. *)
Definition value (x : pyfloat) : option Q :=
  match x with
  | Dec neg c e =>
    let m := if neg then Z.opp (Z.of_N c) else Z.of_N c in
    Some (Qred (match e with
                | Zneg p => Qmake m (Pos.pow 10 p)
                | _ => Qmake (m * Z.pow 10 e) 1
                end))
  | _ => None
  end.

(** Code points of the digit zero of every decimal-digit run of
    Unicode 14.0 (the table behind [Py_UNICODE_TODECIMAL] in CPython 3.11);
    each run holds the ten digits in order. *)
Definition decimal_zeros : list N :=
  [0x30; 0x660; 0x6F0; 0x7C0; 0x966; 0x9E6; 0xA66; 0xAE6; 0xB66; 0xBE6;
   0xC66; 0xCE6; 0xD66; 0xDE6; 0xE50; 0xED0; 0xF20; 0x1040; 0x1090; 0x17E0;
   0x1810; 0x1946; 0x19D0; 0x1A80; 0x1A90; 0x1B50; 0x1BB0; 0x1C40; 0x1C50;
   0xA620; 0xA8D0; 0xA900; 0xA9D0; 0xA9F0; 0xAA50; 0xABF0; 0xFF10; 0x104A0;
   0x10D30; 0x11066; 0x110F0; 0x11136; 0x111D0; 0x112F0; 0x11450; 0x114D0;
   0x11650; 0x116C0; 0x11730; 0x118E0; 0x11950; 0x11C50; 0x11D50; 0x11DA0;
   0x16A60; 0x16AC0; 0x16B50; 0x1D7CE; 0x1D7D8; 0x1D7E2; 0x1D7EC; 0x1D7F6;
   0x1E140; 0x1E2F0; 0x1E950; 0x1FBF0].

Fixpoint todecimal_in (zeros : list N) (c : N) : option N :=
  match zeros with
  | [] => None
  | z :: zs => if (z <=? c) && (c <? z + 10) then Some (c - z)
               else todecimal_in zs c
  end.

Definition todecimal (c : N) : option N := todecimal_in decimal_zeros c.

(** One character of [_PyUnicode_TransformDecimalAndSpaceToASCII]: ASCII
    below DEL is kept, other whitespace becomes a space, other decimal
    digits their ASCII digit; anything else makes the conversion fail. *)
Definition to_ascii (c : N) : option N :=
  if c <? 127 then Some c
  else if isspace c then Some 32
  else option_map (fun d => 48 + d) (todecimal c).

Fixpoint transform (s : str) : option str :=
  match s with
  | [] => Some []
  | c :: r =>
    match to_ascii c with
    | Some a => option_map (cons a) (transform r)
    | None => None
    end
  end.

(** C-locale whitespace ([Py_ISSPACE]), stripped around the number. *)
Definition is_cspace (c : N) : bool := (c =? 32) || ((9 <=? c) && (c <=? 13)).

Definition is_digit (c : N) : bool := (48 <=? c) && (c <=? 57).

Definition underscore : N := 95.

(** Underscores are allowed only between two digits; they are removed
    before the number is read. [prev] is the previous character (NUL at
    the start). *)
Fixpoint drop_underscores (prev : N) (s : str) : option str :=
  match s with
  | [] => if prev =? underscore then None else Some []
  | c :: r =>
    if c =? underscore then
      if is_digit prev then drop_underscores c r else None
    else if (prev =? underscore) && negb (is_digit c) then None
    else option_map (cons c) (drop_underscores c r)
  end.

(** The longest prefix of digits, as a number with its length, and the
    rest. *)
Fixpoint digits (acc : N) (len : nat) (s : str) : N * nat * str :=
  match s with
  | c :: r => if is_digit c then digits (10 * acc + (c - 48)) (S len) r
              else (acc, len, s)
  | [] => (acc, len, [])
  end.

Definition lower (c : N) : N := if (65 <=? c) && (c <=? 90) then c + 32 else c.

Definition str_eqb (x y : str) : bool :=
  if list_eq_dec N.eq_dec x y then true else false.

(** An optional sign; [true] is minus. *)
Definition sign (s : str) : bool * str :=
  match s with
  | 43 :: r => (false, r)
  | 45 :: r => (true, r)
  | _ => (false, s)
  end.

(** The exponent part: nothing, or [e]/[E], an optional sign and at least
    one digit, up to the end of the text. *)
Definition exponent (s : str) : option Z :=
  match s with
  | [] => Some 0%Z
  | c :: r =>
    if lower c =? 101 then
      let '(neg, r1) := sign r in
      match digits 0 0 r1 with
      | (_, O, _) => None
      | (e, _, []) => Some (if neg then Z.opp (Z.of_N e) else Z.of_N e)
      | _ => None
      end
    else None
  end.

(** [sign? (digits [. digits*] | . digits) exponent?], or [inf],
    [infinity], [nan] in any letter case after the sign. *)
Definition number (s : str) : option pyfloat :=
  let '(neg, r) := sign s in
  let '(ip, ilen, r1) := digits 0 0 r in
  let '(m, flen, r2) :=
    match r1 with
    | 46 :: rf => let '(m, tlen, r2) := digits ip ilen rf in
                  (m, (tlen - ilen)%nat, r2)
    | _ => (ip, O, r1)
    end in
  match (ilen + flen)%nat with
  | O =>
    let w := map lower r in
    if str_eqb w (text "inf") || str_eqb w (text "infinity") then Some (Inf neg)
    else if str_eqb w (text "nan") then Some NaN
    else None
  | _ =>
    match exponent r2 with
    | Some e => Some (Dec neg m (e - Z.of_nat flen))
    | None => None
    end
  end.

(** [float(s)] for a str [s]; [None] where Python raises [ValueError]. *)
Definition float (s : str) : option pyfloat :=
  match transform s with
  | None => None
  | Some a =>
    match drop_underscores 0 (rstrip is_cspace (lstrip is_cspace a)) with
    | None => None
    | Some d => number d
    end
  end.

End PyFloat.

(** ** Exceptions *)

Module Exn.

(** The exception classes the function can meet. *)
Inductive pyclass : Set :=
| Exception | OSError | SerialException
| ValueError | UnicodeError | UnicodeDecodeError
| ArithmeticError | ZeroDivisionError | OverflowError.

(** The direct base class ([serial.SerialException] derives from
    [IOError], which is [OSError]). *)
Definition base (c : pyclass) : option pyclass :=
  match c with
  | Exception => None
  | OSError | ValueError | ArithmeticError => Some Exception
  | SerialException => Some OSError
  | UnicodeError => Some ValueError
  | UnicodeDecodeError => Some UnicodeError
  | ZeroDivisionError | OverflowError => Some ArithmeticError
  end.

Definition pyclass_eqb (c d : pyclass) : bool :=
  match c, d with
  | Exception, Exception | OSError, OSError
  | SerialException, SerialException | ValueError, ValueError
  | UnicodeError, UnicodeError | UnicodeDecodeError, UnicodeDecodeError
  | ArithmeticError, ArithmeticError
  | ZeroDivisionError, ZeroDivisionError
  | OverflowError, OverflowError => true
  | _, _ => false
  end.

Fixpoint derives (depth : nat) (c d : pyclass) : bool :=
  pyclass_eqb c d ||
  match depth, base c with
  | S n, Some c' => derives n c' d
  | _, _ => false
  end.

(** [issubclass(c, d)]; no chain above is longer than three steps. *)
Definition issubclass (c d : pyclass) : bool := derives 3 c d.

End Exn.

(** ** The state: world and locals *)

Module Machine.
Import Text PyFloat Exn.

(** What [print] received. *)
Inductive printed : Type :=
| Line (s : str)
| Floats (l : list pyfloat).

(** Calls received by [plot_axes] and [plot_canvas]. *)
Inductive plot_call : Type :=
| Plot_line (xs : list Z) (ys : list real)
| Plot_points (xs ys : list pyfloat)
| Set_xlabel (l : string)
| Set_ylabel (l : string)
| Grid (on : bool)
| Draw.

Record state : Type := mkState {
  (** the ports of the machine that can be opened *)
  ports : list string;
  (** whether [ser] is an open connection *)
  port_open : bool;
  (** what the coming [readline()] calls return, in order; when it is
      exhausted the read times out and returns [b''] *)
  rx : list bytes;
  (** the bytes written to the device *)
  tx : bytes;
  (** how many times the port was asked to open *)
  opens : nat;
  (** how many [readline()] calls were made *)
  reads : nat;
  (** the console *)
  console : list printed;
  (** the calls made on the plot axes and canvas *)
  axes : list plot_call;
  (** the locals of [plot_example] *)
  times : list pyfloat;
  volts : list pyfloat;
  stop_condition : Z
}.

Definition set_port_open (v : bool) (s : state) : state :=
  mkState (ports s) v (rx s) (tx s) (opens s) (reads s) (console s) (axes s)
          (times s) (volts s) (stop_condition s).
Definition set_rx (v : list bytes) (s : state) : state :=
  mkState (ports s) (port_open s) v (tx s) (opens s) (reads s) (console s)
          (axes s) (times s) (volts s) (stop_condition s).
Definition set_tx (v : bytes) (s : state) : state :=
  mkState (ports s) (port_open s) (rx s) v (opens s) (reads s) (console s)
          (axes s) (times s) (volts s) (stop_condition s).
Definition set_opens (v : nat) (s : state) : state :=
  mkState (ports s) (port_open s) (rx s) (tx s) v (reads s) (console s)
          (axes s) (times s) (volts s) (stop_condition s).
Definition set_reads (v : nat) (s : state) : state :=
  mkState (ports s) (port_open s) (rx s) (tx s) (opens s) v (console s)
          (axes s) (times s) (volts s) (stop_condition s).
Definition set_console (v : list printed) (s : state) : state :=
  mkState (ports s) (port_open s) (rx s) (tx s) (opens s) (reads s) v
          (axes s) (times s) (volts s) (stop_condition s).
Definition set_axes (v : list plot_call) (s : state) : state :=
  mkState (ports s) (port_open s) (rx s) (tx s) (opens s) (reads s)
          (console s) v (times s) (volts s) (stop_condition s).
Definition set_times (v : list pyfloat) (s : state) : state :=
  mkState (ports s) (port_open s) (rx s) (tx s) (opens s) (reads s)
          (console s) (axes s) v (volts s) (stop_condition s).
Definition set_volts (v : list pyfloat) (s : state) : state :=
  mkState (ports s) (port_open s) (rx s) (tx s) (opens s) (reads s)
          (console s) (axes s) (times s) v (stop_condition s).
Definition set_stop_condition (v : Z) (s : state) : state :=
  mkState (ports s) (port_open s) (rx s) (tx s) (opens s) (reads s)
          (console s) (axes s) (times s) (volts s) v.

(** The machine before the button is pressed: the ports that can be
    opened and what the device will send once triggered. *)
Definition boot (available : list string) (lines : list bytes) : state :=
  mkState available false lines [] 0 0 [] [] [] [] 0.

(** How a computation ends: it returns, an exception leaves it, or the
    fuel of a loop ran out while its condition still held. *)
Inductive outcome (A : Type) : Type :=
| Returned (a : A) (s : state)
| Raised (e : pyclass) (s : state)
| Unfinished (s : state).
Arguments Returned {A} a s.
Arguments Raised {A} e s.
Arguments Unfinished {A} s.

Definition returned {A : Type} (o : outcome A) : bool :=
  match o with
  | Returned _ _ => true
  | _ => false
  end.

(** The class of the exception that left, if one did. *)
Definition raised_with {A : Type} (o : outcome A) : option pyclass :=
  match o with
  | Raised e _ => Some e
  | _ => None
  end.

Definition unfinished {A : Type} (o : outcome A) : bool :=
  match o with
  | Unfinished _ => true
  | _ => false
  end.

Definition final {A : Type} (o : outcome A) : state :=
  match o with
  | Returned _ s | Raised _ s | Unfinished s => s
  end.

Definition M (A : Type) : Type := state -> outcome A.

Definition ret {A : Type} (a : A) : M A := fun s => Returned a s.

Definition bind {A B : Type} (c : M A) (k : A -> M B) : M B :=
  fun s =>
    match c s with
    | Returned a s' => k a s'
    | Raised e s' => Raised e s'
    | Unfinished s' => Unfinished s'
    end.

Definition raise {A : Type} (e : pyclass) : M A := fun s => Raised e s.

(** A statement that only changes the state. *)
Definition modify (f : state -> state) : M unit := fun s => Returned tt (f s).

(** Reading a local or a part of the world. *)
Definition read {A : Type} (f : state -> A) : M A := fun s => Returned (f s) s.

(** [try: body  except cls: handler]: an exception of [body] that is an
    instance of [cls] runs [handler] from the state [body] left. *)
Definition try_except {A : Type} (body : M A) (cls : pyclass) (handler : M A)
  : M A :=
  fun s =>
    match body s with
    | Raised e s' => if issubclass e cls then handler s' else Raised e s'
    | o => o
    end.

(** [while cond: body]. With no fuel left and the condition still true
    the loop is [Unfinished]: with fuel [n] that is the state at the head
    of the loop after [n] iterations. *)
Fixpoint while (fuel : nat) (cond : state -> bool) (body : M unit) : M unit :=
  fun s =>
    if cond s then
      match fuel with
      | O => Unfinished s
      | S n =>
        match body s with
        | Returned _ s' => while n cond body s'
        | o => o
        end
      end
    else Returned tt s.

(** An option as a result or an exception. *)
Definition orraise {A : Type} (e : pyclass) (o : option A) : M A :=
  match o with
  | Some a => ret a
  | None => raise e
  end.

End Machine.

Declare Scope py_scope.
Delimit Scope py_scope with py.
Notation "x <- c1 ;; c2" := (Machine.bind c1 (fun x => c2))
  (at level 61, c1 at next level, right associativity) : py_scope.
Notation "' pat <- c1 ;; c2" :=
  (Machine.bind c1 (fun x => match x with pat => c2 end))
  (at level 61, pat pattern, c1 at next level, right associativity) : py_scope.
Notation "c1 ;; c2" := (Machine.bind c1 (fun _ => c2))
  (at level 61, right associativity) : py_scope.

(** ** pyserial, [print] and the plot objects *)

Module Serial.
Import Text Exn Machine.
Local Open Scope py_scope.

(** [serial.Serial(port, baud_rate, timeout=...)]: the constructor opens
    the port at once and raises [SerialException] when it cannot. *)
Definition Serial (port : string) (baud_rate timeout : Z) : M unit :=
  fun s =>
    let s1 := set_opens (S (opens s)) s in
    if in_dec string_dec port (ports s)
    then Returned tt (set_port_open true s1)
    else Raised SerialException s1.

(** How the serial link behaves once the port is open: whether a write
    fails, and whether the [n]-th [readline()] call of the machine fails
    ([n] counts the calls made before it). pyserial reports such a fault
    (device unplugged, driver error) by raising [SerialException] from
    the call. *)
Record link : Type := mkLink {
  write_fails : bool;
  read_fails : nat -> bool
}.

(** A link that holds. *)
Definition steady : link := mkLink false (fun _ => false).

(** [ser.write(data)]; a port that is not open raises, and so does a
    fault of the link. *)
Definition write (l : link) (data : bytes) : M unit :=
  fun s =>
    if port_open s then
      if write_fails l then Raised SerialException s
      else Returned tt (set_tx (tx s ++ data) s)
    else Raised SerialException s.

(** [ser.readline()]: the next line of the device, or [b''] when the
    read times out; a port that is not open raises, and so does a fault
    of the link. *)
Definition readline (l : link) : M bytes :=
  fun s =>
    if port_open s then
      let s1 := set_reads (S (reads s)) s in
      if read_fails l (reads s) then Raised SerialException s1
      else match rx s with
           | [] => Returned [] s1
           | l :: r => Returned l (set_rx r s1)
           end
    else Raised SerialException s.

(** [ser.close()]; no statement of [plot_example] calls it. *)
Definition close : M unit := modify (set_port_open false).

End Serial.

Module IO.
Import Text PyFloat Machine.

(** [print(x)] *)
Definition print (x : printed) : M unit :=
  modify (fun s => set_console (console s ++ [x]) s).

(** A call on [plot_axes] or [plot_canvas]. *)
Definition call (c : plot_call) : M unit :=
  modify (fun s => set_axes (axes s ++ [c]) s).

End IO.

(** ** The theoretical curve (lines 76-82) *)

Module Theory.
Import Exn.
Local Open Scope R_scope.

(** A float expression: its value, or the exception it raises. *)
Definition exc (A : Type) : Type := (pyclass + A)%type.

Definition bind {A B : Type} (c : exc A) (k : A -> exc B) : exc B :=
  match c with
  | inl e => inl e
  | inr a => k a
  end.

(** The largest finite binary64. *)
Definition DBL_MAX : real := (2 - / 2 ^ 52) * 2 ^ 1023.

(** [x / y] on floats raises [ZeroDivisionError] on a zero divisor. *)
Definition truediv (x y : real) : exc real :=
  if Req_dec_T y 0 then inl ZeroDivisionError else inr (x / y).

(** [math.exp(x)] raises [OverflowError] when the result is out of
    range. *)
Definition math_exp (x : real) : exc real :=
  if Rlt_dec DBL_MAX (exp x) then inl OverflowError else inr (exp x).

(** [[f(t) for t in l]]: the first exception ends the comprehension. *)
Fixpoint comprehension {A B : Type} (f : A -> exc B) (l : list A)
  : exc (list B) :=
  match l with
  | [] => inr []
  | a :: r => bind (f a) (fun y => bind (comprehension f r)
                                        (fun ys => inr (y :: ys)))
  end.

Definition VMAX : real := 3.094.
Definition R : real := 90.4e3.
Definition C : real := 3.3e-6.

(** [list(range(n))] *)
Definition range (n : nat) : list Z := map Z.of_nat (seq 0 n).

(** [theory_times = list(range(2000))] *)
Definition theory_times : list Z := range 2000.

(** [VMAX * (1 - math.exp(-t / (R * C * 1000)))]; the int [-t] is
    converted to a float by the division. *)
Definition volt (t : Z) : exc real :=
  bind (truediv (IZR (- t)) (R * C * 1000)) (fun q =>
  bind (math_exp q) (fun e =>
  inr (VMAX * (1 - e)))).

(** [theory_volts = [VMAX * (1 - math.exp(-t / (R * C * 1000)))
                     for t in theory_times]] *)
Definition theory_volts : exc (list real) := comprehension volt theory_times.

End Theory.

(** ** [plot_example] *)

Module Lab0.
Import Text PyFloat Exn Machine IO.
Local Open Scope py_scope.
Local Open Scope Z_scope.

(** Lines 59 and 62-64 without their effects, from the decoded text on:
    the two floats of a line, or [None] where one of the statements
    raises. *)
Definition parse_text (t : str) : option (pyfloat * pyfloat) :=
  match split comma (strip t) with
  | [times_str; volts_str] =>
    match float times_str, float volts_str with
    | Some times_flt, Some volts_flt => Some (times_flt, volts_flt)
    | _, _ => None
    end
  | _ => None
  end.

(** The same from the bytes [readline()] returned. *)
Definition parse_line (l : bytes) : option (pyfloat * pyfloat) :=
  match decode l with
  | None => None
  | Some t => parse_text t
  end.

(** [times_str, volts_str = fields]: anything but two values raises
    [ValueError]. *)
Definition unpack2 (fields : list str) : M (str * str) :=
  match fields with
  | [x; y] => ret (x, y)
  | _ => raise ValueError
  end.

Definition diagnostic : printed := Line (text "Data collection in process").

(** The body of the [while] loop, lines 57-71, on the link [l]. *)
Definition loop_body_on (l : Serial.link) : M unit :=
  try_except
    (raw <- Serial.readline l ;;
     decoded <- orraise UnicodeDecodeError (decode raw) ;;
     let data := strip decoded in
     print (Line data) ;;
     ' (times_str, volts_str) <- unpack2 (split comma data) ;;
     times_flt <- orraise ValueError (float times_str) ;;
     volts_flt <- orraise ValueError (float volts_str) ;;
     modify (fun s => set_times (times s ++ [times_flt]) s) ;;
     modify (fun s => set_volts (volts s ++ [volts_flt]) s) ;;
     modify (fun s => set_stop_condition (stop_condition s + 10) s))
    ValueError
    (print diagnostic).

(** The body of the loop on a link that holds. *)
Definition loop_body : M unit := loop_body_on Serial.steady.

(** Lines 73-74: [print(times)], [print(volts)]. *)
Definition report : M unit :=
  ts <- read times ;; print (Floats ts) ;;
  vs <- read volts ;; print (Floats vs).

Definition serial_port : string := "COM9".
Definition baud_rate : Z := 115200.

(** Lines 45-74 on the link [l]: open the port, trigger the device,
    collect the samples, print them. *)
Definition acquisition_on (l : Serial.link) (fuel : nat) : M unit :=
  Serial.Serial serial_port baud_rate 1 ;;
  Serial.write l [Byte.x04] ;;
  modify (set_times []) ;;
  modify (set_volts []) ;;
  modify (set_stop_condition 0) ;;
  while fuel (fun s => stop_condition s <=? 1990) (loop_body_on l) ;;
  report.

(** Lines 45-74 on a link that holds. *)
Definition acquisition (fuel : nat) : M unit :=
  acquisition_on Serial.steady fuel.

(** A float expression evaluated inside the function. *)
Definition eval {A : Type} (c : Theory.exc A) : M A :=
  match c with
  | inl e => raise e
  | inr a => ret a
  end.

(** Lines 76-92: compute the theoretical curve, then plot both series. *)
Definition overlay (xlabel ylabel : string) : M unit :=
  let theory_times := Theory.theory_times in
  theory_volts <- eval Theory.theory_volts ;;
  call (Plot_line theory_times theory_volts) ;;
  ts <- read times ;; vs <- read volts ;;
  call (Plot_points ts vs) ;;
  call (Set_xlabel xlabel) ;;
  call (Set_ylabel ylabel) ;;
  call (Grid true) ;;
  call Draw.

(** What returning does to the local [ser]. The function has no
    [close], [with] or [finally]; when it returns, its frame is dropped
    and with it the only reference to the connection, which CPython
    finalises at once: [io.RawIOBase.__del__] calls [close()]. An
    exception that leaves the function keeps the frame, and so the
    connection, alive in its traceback: nothing is released then. *)
Definition release_locals : M unit := Serial.close.

(** [plot_example(plot_axes, plot_canvas, xlabel, ylabel)] on the link
    [l]; the axes and the canvas are the [axes] of the state, [fuel]
    bounds the loop. *)
Definition plot_example_on (l : Serial.link) (fuel : nat)
           (xlabel ylabel : string) : M unit :=
  acquisition_on l fuel ;; overlay xlabel ylabel ;; release_locals.

(** [plot_example] on a link that holds. *)
Definition plot_example (fuel : nat) (xlabel ylabel : string) : M unit :=
  plot_example_on Serial.steady fuel xlabel ylabel.

End Lab0.

(** ** Vocabulary of the properties *)

Module Run.
Import Text PyFloat Exn Machine Lab0.
Local Open Scope Z_scope.

(** The machine of the laboratory: [available] ports, a device that
    will send [lines]. *)
Definition lab (lines : list bytes) : state := boot [serial_port] lines.

(** Whether a line yields a sample. *)
Definition accepted (l : bytes) : bool :=
  match parse_line l with
  | Some _ => true
  | None => false
  end.

(** The samples of the well-formed lines of a stream, in order. *)
Definition samples (ls : list bytes) : list (pyfloat * pyfloat) :=
  flat_map (fun l => match parse_line l with
                     | Some p => [p]
                     | None => []
                     end) ls.

(** What the next [n] calls of [readline()] return when the device
    holds [pending]: its lines, then time-outs. *)
Fixpoint incoming (n : nat) (pending : list bytes) : list bytes :=
  match n with
  | O => []
  | S k => hd [] pending :: incoming k (tl pending)
  end.

(** [s'] is [s] after the loop read [got]: port, written bytes and plot
    untouched, one sample appended per well-formed line, the counter
    advanced by ten for each of them. *)
Definition follows (got : list bytes) (s s' : state) : Prop :=
  ports s' = ports s /\ port_open s' = true /\ tx s' = tx s /\
  opens s' = opens s /\ axes s' = axes s /\
  reads s' = (reads s + List.length got)%nat /\
  times s' = times s ++ map fst (samples got) /\
  volts s' = volts s ++ map snd (samples got) /\
  stop_condition s' = stop_condition s + 10 * Z.of_nat (List.length (samples got)).

(** What the loop never touches, whatever the link does: the ports of
    the machine, the open connection, the bytes written, the count of
    openings, the axes. *)
Definition kept (s s' : state) : Prop :=
  ports s' = ports s /\ port_open s' = true /\ tx s' = tx s /\
  opens s' = opens s /\ axes s' = axes s.

(** The state in which the loop starts once the port is open: the
    trigger byte written, the lists empty, the counter at zero. *)
Definition armed (available : list string) (lines : list bytes) : state :=
  mkState available true lines [Byte.x04] 1 0 [] [] [] [] 0.

(** The stream of the parse-robustness scenario. *)
Definition scenario : list bytes :=
  map b ["12,1.5"; "garbage"; "30,"; "abc,def"; "45,2.1"]%string.

(** One malformed line, then two hundred well-formed ones. *)
Definition one_bad_then_200 : list bytes :=
  b "garbage" :: repeat (b "1,2") 200.

(** Two hundred well-formed lines. *)
Definition two_hundred : list bytes := repeat (b "1,2") 200.

(** A character that is neither whitespace for [strip] nor a comma. *)
Definition plain (c : N) : bool := negb (isspace c) && negb (c =? comma)%N.

(** The number of diagnostics on the console. *)
Definition diagnostics (s : state) : nat :=
  List.length (filter (fun p => match p with
                           | Line t => str_eqb t (text "Data collection in process")
                           | Floats _ => false
                           end) (console s)).

(** The state in which the loop starts when the function is entered in
    [s] with the port available: one more opening, the trigger byte
    written after whatever was written before, the lists and the counter
    reset (lines 47-54). *)
Definition rearmed (s : state) : state :=
  set_stop_condition 0
    (set_volts []
       (set_times []
          (set_tx (tx s ++ [Byte.x04])
             (set_port_open true (set_opens (S (opens s)) s))))).

(** A link whose [k]-th read fails (counting from zero) and that holds
    otherwise. *)
Definition faulty_at (k : nat) : Serial.link :=
  Serial.mkLink false (Nat.eqb k).

(** A byte that is ASCII whitespace for [strip]: tab to carriage return,
    the four separators 0x1C-0x1F, space. *)
Definition blank (x : Byte.byte) : bool :=
  (Byte.to_N x <? 128)%N && isspace (Byte.to_N x).

(** The six calls lines 83-92 make on the axes and the canvas, for the
    series held in [s]. *)
Definition drawing (xlabel ylabel : string) (s : state) : list plot_call :=
  [Plot_line Theory.theory_times
             (map (fun t : Z =>
                     (Theory.VMAX
                      * (1 - exp (- IZR t / (Theory.R * Theory.C * 1000))))%R)
                  Theory.theory_times);
   Plot_points (times s) (volts s);
   Set_xlabel xlabel; Set_ylabel ylabel; Grid true; Draw].

(** What one read leaves on the console: the stripped text of the line
    when it decodes, then the diagnostic when no sample comes out of it. *)
Definition echo (l : bytes) : list printed :=
  match decode l with
  | None => [diagnostic]
  | Some t =>
    Line (strip t) :: match parse_text t with
                      | Some _ => []
                      | None => [diagnostic]
                      end
  end.

(** The formula of the signal model, in the words of its description:
    [peak_voltage * (1 - e^(-t / (resistance * capacitance * 1000)))]. *)
Definition model (peak_voltage resistance capacitance : real) (t : Z) : real :=
  (peak_voltage * (1 - exp (- IZR t / (resistance * capacitance * 1000))))%R.

End Run.

(** * Properties *)

(** ** The loop, one line at a time *)

Module LoopFacts.
Import Text PyFloat Exn Machine IO Lab0 Run.
Local Open Scope Z_scope.

Lemma bind_returned {A B : Type} (c : M A) (k : A -> M B) (s s' : state)
      (a : A) :
  c s = Returned a s' -> (x <- c ;; k x)%py s = k a s'.
Proof. intros H. unfold bind. now rewrite H. Qed.

Lemma bind_raised {A B : Type} (c : M A) (k : A -> M B) (s s' : state)
      (e : pyclass) :
  c s = Raised e s' -> (x <- c ;; k x)%py s = Raised e s'.
Proof. intros H. unfold bind. now rewrite H. Qed.

Lemma bind_unfinished {A B : Type} (c : M A) (k : A -> M B) (s s' : state) :
  c s = Unfinished s' -> (x <- c ;; k x)%py s = Unfinished s'.
Proof. intros H. unfold bind. now rewrite H. Qed.

Lemma unfinished_final {A : Type} (o : outcome A) :
  unfinished o = true -> o = Unfinished (final o).
Proof. destruct o; simpl; intros H; [discriminate H|discriminate H|reflexivity]. Qed.

Lemma samples_cons (l : bytes) (ls : list bytes) :
  samples (l :: ls) = samples [l] ++ samples ls.
Proof. unfold samples; simpl. now rewrite app_nil_r. Qed.

Lemma samples_app (xs ys : list bytes) :
  samples (xs ++ ys) = samples xs ++ samples ys.
Proof. apply flat_map_app. Qed.

Lemma samples_one (l : bytes) :
  samples [l] = match parse_line l with Some p => [p] | None => [] end.
Proof. unfold samples; simpl. now rewrite app_nil_r. Qed.

(** A time-out yields the empty line, which is not a sample. *)
Lemma timeout_rejected : parse_line [] = None.
Proof. reflexivity. Qed.

Lemma follows_refl (s : state) : port_open s = true -> follows [] s s.
Proof.
  intros H. unfold follows; simpl.
  rewrite !app_nil_r, Nat.add_0_r, Z.add_0_r. tauto.
Qed.

Lemma follows_trans (xs ys : list bytes) (s1 s2 s3 : state) :
  follows xs s1 s2 -> follows ys s2 s3 -> follows (xs ++ ys) s1 s3.
Proof.
  unfold follows.
  intros (P1 & O1 & T1 & N1 & A1 & R1 & Ti1 & V1 & C1)
         (P2 & O2 & T2 & N2 & A2 & R2 & Ti2 & V2 & C2).
  rewrite samples_app, !map_app, !length_app.
  repeat split; try congruence.
  - rewrite R2, R1. lia.
  - rewrite Ti2, Ti1. now rewrite app_assoc.
  - rewrite V2, V1. now rewrite app_assoc.
  - rewrite C2, C1. lia.
Qed.

Lemma readline_open (s : state) :
  port_open s = true ->
  Serial.readline Serial.steady s
  = Returned (hd [] (rx s)) (set_rx (tl (rx s)) (set_reads (S (reads s)) s)).
Proof.
  intros H. unfold Serial.readline. rewrite H.
  destruct s as [p o [|l r] t n k c a ti v st]; reflexivity.
Qed.

(** One iteration on an open port and a link that holds returns normally
    whatever the line is: the sample is appended and the counter advanced
    exactly when the line is well-formed. *)
Lemma loop_body_step (s : state) :
  port_open s = true ->
  exists s', loop_body s = Returned tt s'
             /\ follows [hd [] (rx s)] s s' /\ rx s' = tl (rx s).
Proof.
  intros Hopen.
  unfold follows. rewrite samples_one. unfold parse_line, parse_text.
  unfold loop_body, loop_body_on, try_except, bind.
  rewrite (readline_open s Hopen).
  destruct (decode (hd [] (rx s))) as [t|]; simpl.
  2:{ eexists. split; [reflexivity|]. simpl.
      rewrite !app_nil_r, Z.add_0_r, Nat.add_1_r. tauto. }
  destruct (split comma (strip t)) as [|x [|y [|z fs]]]; simpl;
    try (eexists; split; [reflexivity|]; simpl;
         rewrite !app_nil_r, Z.add_0_r, Nat.add_1_r; tauto).
  destruct (float x) as [tf|]; simpl;
    [destruct (float y) as [vf|]; simpl|];
    eexists; (split; [reflexivity|]); simpl;
    rewrite ?app_nil_r, ?Z.add_0_r, Nat.add_1_r; tauto.
Qed.

Lemma incoming_length (n : nat) (pending : list bytes) :
  List.length (incoming n pending) = n.
Proof.
  revert pending. induction n as [|n IH]; intros pending; simpl; [reflexivity|].
  now rewrite IH.
Qed.

Lemma incoming_within (n : nat) (xs ys : list bytes) :
  (n <= List.length xs)%nat -> incoming n (xs ++ ys) = firstn n xs.
Proof.
  revert xs. induction n as [|n IH]; intros xs Hn; [reflexivity|].
  destruct xs as [|x xs]; simpl in *; [lia|].
  rewrite IH by lia. reflexivity.
Qed.

(** Time-outs add no sample: the next [n] reads hold at most the samples
    of the pending lines. *)
Lemma samples_incoming_le (n : nat) (pending : list bytes) :
  (List.length (samples (incoming n pending))
   <= List.length (samples pending))%nat.
Proof.
  revert pending. induction n as [|n IH]; intros pending; cbn [incoming];
    [simpl; lia|].
  rewrite samples_cons, length_app.
  destruct pending as [|l r]; simpl hd; simpl tl.
  - specialize (IH []). rewrite samples_one, timeout_rejected. simpl in *. lia.
  - specialize (IH r). rewrite (samples_cons l r), length_app. lia.
Qed.

Local Abbreviation cond := (fun s : state => stop_condition s <=? 1990).

(** While the counter stays at most 1990 the loop keeps reading: after
    [n] iterations it is in the state that [follows] the [n] lines. *)
Lemma while_steps (n : nat) :
  forall (s : state) (m : nat),
    port_open s = true ->
    stop_condition s + 10 * Z.of_nat (List.length (samples (incoming n (rx s))))
      <= 1990 ->
    exists s', follows (incoming n (rx s)) s s' /\ rx s' = skipn n (rx s)
               /\ while (n + m) cond loop_body s = while m cond loop_body s'.
Proof.
  induction n as [|n IH]; intros s m Hopen Hle.
  - exists s. split; [now apply follows_refl|]. split; reflexivity.
  - simpl incoming in *. rewrite samples_cons, length_app in Hle.
    destruct (loop_body_step s Hopen) as (s1 & Hrun & Hf & Hrx).
    assert (Hopen1 : port_open s1 = true) by apply Hf.
    assert (Hc1 : stop_condition s1
                  = stop_condition s
                    + 10 * Z.of_nat (List.length (samples [hd [] (rx s)])))
      by apply Hf.
    destruct (IH s1 m Hopen1) as (s2 & Hf2 & Hrx2 & Hw).
    { rewrite Hrx, Hc1.
      rewrite Nat2Z.inj_add, Z.mul_add_distr_l, Z.add_assoc in Hle. exact Hle. }
    exists s2. split; [|split].
    + change (hd [] (rx s) :: incoming n (tl (rx s)))
        with ([hd [] (rx s)] ++ incoming n (tl (rx s))).
      eapply follows_trans; [exact Hf|]. now rewrite <- Hrx.
    + rewrite Hrx2, Hrx. destruct (rx s); [now rewrite skipn_nil|reflexivity].
    + simpl while. replace (stop_condition s <=? 1990) with true
        by (symmetry; apply Z.leb_le; lia).
      rewrite Hrun. exact Hw.
Qed.

(** On a link that holds, whatever the device sends, the loop never
    raises: it has returned, or it is still running, in a state that
    [follows] the lines read. *)
Lemma while_follows (fuel : nat) :
  forall s : state,
    port_open s = true ->
    exists n s',
      (n <= fuel)%nat /\ follows (incoming n (rx s)) s s'
      /\ rx s' = skipn n (rx s)
      /\ (while fuel cond loop_body s = Returned tt s'
            /\ 1990 < stop_condition s'
          \/ while fuel cond loop_body s = Unfinished s'
             /\ n = fuel /\ stop_condition s' <= 1990).
Proof.
  induction fuel as [|fuel IH]; intros s Hopen.
  - exists O, s. split; [lia|]. split; [now apply follows_refl|].
    split; [reflexivity|]. simpl.
    destruct (stop_condition s <=? 1990) eqn:E.
    + right. apply Z.leb_le in E. auto.
    + left. apply Z.leb_gt in E. auto.
  - simpl while. destruct (stop_condition s <=? 1990) eqn:E.
    + destruct (loop_body_step s Hopen) as (s1 & Hrun & Hf & Hrx).
      rewrite Hrun.
      assert (Hopen1 : port_open s1 = true) by apply Hf.
      destruct (IH s1 Hopen1) as (n & s2 & Hn & Hf2 & Hrx2 & Hend).
      exists (S n), s2. split; [lia|]. split; [|split].
      * change (incoming (S n) (rx s))
          with ([hd [] (rx s)] ++ incoming n (tl (rx s))).
        eapply follows_trans; [exact Hf|]. now rewrite <- Hrx.
      * rewrite Hrx2, Hrx. destruct (rx s); [now rewrite skipn_nil|reflexivity].
      * destruct Hend as [[H1 H2]|[H1 [H2 H3]]]; [left|right]; auto.
    + exists O, s. split; [lia|]. split; [now apply follows_refl|].
      split; [reflexivity|]. left. apply Z.leb_gt in E. auto.
Qed.

Lemma follows_console (got : list bytes) (s s' : state) (c : list printed) :
  follows got s s' -> follows got s (set_console c s').
Proof. unfold follows; simpl; tauto. Qed.

Lemma report_returns (s : state) :
  exists c, report s = Returned tt (set_console c s).
Proof. eexists. reflexivity. Qed.

(** With the port available, the session is the loop started from the
    [armed] state, followed by the two prints. *)
Lemma acquisition_armed (fuel : nat) (available : list string)
      (lines : list bytes) :
  In serial_port available ->
  acquisition fuel (boot available lines)
  = (while fuel cond loop_body ;; report)%py (armed available lines).
Proof.
  intros Hin. unfold acquisition, acquisition_on, report, bind, Serial.Serial.
  destruct (in_dec string_dec serial_port (ports (boot available lines)))
    as [_|Hn]; [reflexivity|].
  exfalso. apply Hn. exact Hin.
Qed.

(** Without it, the constructor raises and nothing else happens. *)
Lemma acquisition_unavailable (fuel : nat) (available : list string)
      (lines : list bytes) :
  ~ In serial_port available ->
  acquisition fuel (boot available lines)
  = Raised SerialException (set_opens 1 (boot available lines)).
Proof.
  intros Hn. unfold acquisition, acquisition_on, bind, Serial.Serial.
  destruct (in_dec string_dec serial_port (ports (boot available lines)))
    as [Hin|_]; [|reflexivity].
  exfalso. apply Hn. exact Hin.
Qed.

(** Every outcome of the session with the port available and a link that
    holds: returned or still running, never raised, in a state that
    [follows] the reads. *)
Lemma acquisition_follows (fuel : nat) (available : list string)
      (lines : list bytes) :
  In serial_port available ->
  exists n s',
    (n <= fuel)%nat
    /\ follows (incoming n lines) (armed available lines) s'
    /\ rx s' = skipn n lines
    /\ (acquisition fuel (boot available lines) = Returned tt s'
          /\ 1990 < stop_condition s'
        \/ acquisition fuel (boot available lines) = Unfinished s'
           /\ n = fuel /\ stop_condition s' <= 1990).
Proof.
  intros Hin. rewrite (acquisition_armed fuel available lines Hin).
  destruct (while_follows fuel (armed available lines) eq_refl)
    as (n & s1 & Hn & Hf & Hrx & Hend).
  destruct Hend as [[H1 H2]|[H1 [H2 H3]]].
  - rewrite (bind_returned _ _ _ _ _ H1).
    destruct (report_returns s1) as (c & Hc). rewrite Hc.
    exists n, (set_console c s1). split; [exact Hn|].
    split; [now apply follows_console|]. split; [exact Hrx|].
    left. split; [reflexivity|exact H2].
  - rewrite (bind_unfinished _ _ _ _ H1).
    exists n, s1. split; [exact Hn|]. split; [exact Hf|].
    split; [exact Hrx|]. right. auto.
Qed.

Lemma samples_firstn_le (n : nat) (xs : list bytes) :
  (List.length (samples (firstn n xs)) <= List.length (samples xs))%nat.
Proof.
  rewrite <- (firstn_skipn n xs) at 2. rewrite samples_app, length_app. lia.
Qed.

Lemma while_exit (fuel : nat) (body : M unit) (s : state) :
  1990 < stop_condition s -> while fuel cond body s = Returned tt s.
Proof.
  intros H. destruct fuel; simpl;
    (replace (stop_condition s <=? 1990) with false
      by (symmetry; apply Z.leb_gt; lia)); reflexivity.
Qed.

Lemma while_out_of_fuel (body : M unit) (s : state) :
  stop_condition s <= 1990 -> while 0 cond body s = Unfinished s.
Proof.
  intros H. simpl.
  replace (stop_condition s <=? 1990) with true
    by (symmetry; apply Z.leb_le; lia).
  reflexivity.
Qed.

Lemma port_in_lab : In serial_port [serial_port].
Proof. now left. Qed.

(** The loop is still running after [n] reads as long as the lines read
    hold fewer than two hundred samples. *)
Lemma acquisition_still_running (n : nat) (available : list string)
      (lines : list bytes) :
  In serial_port available ->
  (List.length (samples (incoming n lines)) < 200)%nat ->
  exists s, acquisition n (boot available lines) = Unfinished s
            /\ follows (incoming n lines) (armed available lines) s
            /\ rx s = skipn n lines.
Proof.
  intros Hin Hlt. rewrite (acquisition_armed n available lines Hin).
  destruct (while_steps n (armed available lines) 0 eq_refl)
    as (s1 & Hf & Hrx & Hw).
  { simpl rx. simpl stop_condition. lia. }
  rewrite Nat.add_0_r in Hw.
  assert (Hc : stop_condition s1 <= 1990).
  { destruct Hf as (_ & _ & _ & _ & _ & _ & _ & _ & Hc).
    rewrite Hc. simpl rx. simpl stop_condition. lia. }
  rewrite (while_out_of_fuel loop_body s1 Hc) in Hw.
  exists s1. split; [|split; [exact Hf|exact Hrx]].
  now apply bind_unfinished.
Qed.

(** A device that sends fewer than two hundred well-formed lines keeps
    the session in its loop, whatever the fuel. *)
Lemma starved (fuel : nat) (available : list string) (lines : list bytes) :
  In serial_port available ->
  (List.length (samples lines) < 200)%nat ->
  exists s, acquisition fuel (boot available lines) = Unfinished s.
Proof.
  intros Hin Hlt.
  destruct (acquisition_still_running fuel available lines Hin)
    as (s & H & _).
  - pose proof (samples_incoming_le fuel lines). lia.
  - now exists s.
Qed.

(** On a port that is not open [readline()] raises, and
    [except ValueError] does not catch it. *)
Lemma loop_body_closed (s : state) :
  port_open s = false -> loop_body s = Raised SerialException s.
Proof.
  intros H. unfold loop_body, loop_body_on, try_except, bind, Serial.readline.
  rewrite H. reflexivity.
Qed.

Lemma plot_example_unavailable (fuel : nat) (available : list string)
      (lines : list bytes) (xlabel ylabel : string) :
  ~ In serial_port available ->
  plot_example fuel xlabel ylabel (boot available lines)
  = Raised SerialException (set_opens 1 (boot available lines)).
Proof.
  intros Hn. unfold plot_example, plot_example_on. apply bind_raised.
  now apply acquisition_unavailable.
Qed.

End LoopFacts.

(** ** The theoretical curve *)

Module TheoryFacts.
Import Exn Machine Lab0 Run.
Local Open Scope R_scope.

Lemma tau_pos : 0 < Theory.R * Theory.C * 1000.
Proof. unfold Theory.R, Theory.C. lra. Qed.

Lemma DBL_MAX_ge_1 : 1 <= Theory.DBL_MAX.
Proof.
  unfold Theory.DBL_MAX.
  assert (H1 : 1 <= 2 ^ 1023) by (apply pow_R1_Rle; lra).
  assert (H2 : 1 <= 2 ^ 52) by (apply pow_R1_Rle; lra).
  assert (H3 : / 2 ^ 52 <= 1).
  { rewrite <- Rinv_1. apply Rinv_le_contravar; lra. }
  nra.
Qed.

Lemma exp_le_1 (x : real) : x <= 0 -> exp x <= 1.
Proof.
  intros [Hlt|Heq].
  - rewrite <- exp_0. left. now apply exp_increasing.
  - subst x. rewrite exp_0. lra.
Qed.

(** Neither the division nor [math.exp] raises for a time [t >= 0], and
    the value is the one of the formula. *)
Lemma volt_value (t : Z) :
  (0 <= t)%Z ->
  Theory.volt t = inr (model Theory.VMAX Theory.R Theory.C t).
Proof.
  intros Ht. unfold Theory.volt, Theory.bind, Theory.truediv.
  pose proof tau_pos as Htau.
  destruct (Req_dec_T (Theory.R * Theory.C * 1000) 0) as [E|_]; [lra|].
  unfold Theory.math_exp.
  assert (Hq : IZR (- t) / (Theory.R * Theory.C * 1000) <= 0).
  { rewrite opp_IZR. apply IZR_le in Ht.
    unfold Rdiv. rewrite <- Ropp_mult_distr_l.
    assert (0 <= IZR t * / (Theory.R * Theory.C * 1000)).
    { apply Rmult_le_pos; [exact Ht|]. left. now apply Rinv_0_lt_compat. }
    lra. }
  destruct (Rlt_dec Theory.DBL_MAX
                    (exp (IZR (- t) / (Theory.R * Theory.C * 1000))))
    as [Hbig|_].
  - pose proof (exp_le_1 _ Hq). pose proof DBL_MAX_ge_1. lra.
  - unfold model. now rewrite opp_IZR.
Qed.

Lemma comprehension_map {A B : Type} (f : A -> Theory.exc B) (g : A -> B)
      (l : list A) :
  (forall a, In a l -> f a = inr (g a)) ->
  Theory.comprehension f l = inr (map g l).
Proof.
  induction l as [|a l IH]; intros H; simpl; [reflexivity|].
  rewrite (H a) by now left. simpl.
  rewrite IH by (intros x Hx; apply H; now right). reflexivity.
Qed.

Lemma range_nonneg (n : nat) (t : Z) : In t (Theory.range n) -> (0 <= t)%Z.
Proof.
  unfold Theory.range. rewrite in_map_iff. intros (k & <- & _). lia.
Qed.

Lemma range_length (n : nat) : List.length (Theory.range n) = n.
Proof. unfold Theory.range. now rewrite length_map, length_seq. Qed.

Lemma range_nth (n k : nat) :
  (k < n)%nat -> nth_error (Theory.range n) k = Some (Z.of_nat k).
Proof.
  intros H. unfold Theory.range.
  rewrite nth_error_map, nth_error_seq.
  destruct (Nat.ltb_spec k n) as [_|Hge]; [reflexivity|lia].
Qed.

(** The comprehension never raises: the list is the formula mapped over
    the times. *)
Lemma theory_volts_value :
  Theory.theory_volts
  = inr (map (model Theory.VMAX Theory.R Theory.C) Theory.theory_times).
Proof.
  unfold Theory.theory_volts. apply comprehension_map.
  intros t Ht. apply volt_value. eapply range_nonneg. exact Ht.
Qed.

(** The statements after the acquisition always return; they touch
    nothing but the axes. *)
Lemma overlay_returns (xlabel ylabel : string) (s : state) :
  overlay xlabel ylabel s
  = Returned tt
      (set_axes
         (axes s ++
          [Plot_line Theory.theory_times
                     (map (model Theory.VMAX Theory.R Theory.C)
                          Theory.theory_times);
           Plot_points (times s) (volts s);
           Set_xlabel xlabel; Set_ylabel ylabel; Grid true; Draw]) s).
Proof.
  unfold overlay, Machine.bind. rewrite theory_volts_value.
  generalize (map (model Theory.VMAX Theory.R Theory.C) Theory.theory_times).
  generalize Theory.theory_times. intros ts vs.
  unfold eval, ret, IO.call, modify, read. simpl.
  rewrite <- !app_assoc. reflexivity.
Qed.

End TheoryFacts.

(** ** Faults of the link and the release of the connection *)

Module LinkFacts.
Import Text PyFloat Exn Machine IO Lab0 Run LoopFacts.
Local Open Scope Z_scope.

Local Abbreviation cond := (fun s : state => stop_condition s <=? 1990).

(** An iteration whose read does not fail is the iteration on a link
    that holds. *)
Lemma loop_body_on_holds (l : Serial.link) (s : state) :
  Serial.read_fails l (reads s) = false -> loop_body_on l s = loop_body s.
Proof.
  intros H.
  unfold loop_body, loop_body_on, try_except, bind, Serial.readline.
  rewrite H. reflexivity.
Qed.

(** An iteration whose read fails: [except ValueError] does not catch
    the [SerialException], which leaves the body with nothing changed
    but the count of reads. *)
Lemma loop_body_on_fault (l : Serial.link) (s : state) :
  port_open s = true ->
  Serial.read_fails l (reads s) = true ->
  loop_body_on l s = Raised SerialException (set_reads (S (reads s)) s).
Proof.
  intros Ho H. unfold loop_body_on, try_except, bind, Serial.readline.
  rewrite Ho, H. reflexivity.
Qed.

Lemma kept_refl (s : state) : port_open s = true -> kept s s.
Proof. intros H. unfold kept. auto. Qed.

Lemma kept_trans (s1 s2 s3 : state) : kept s1 s2 -> kept s2 s3 -> kept s1 s3.
Proof.
  unfold kept. intros (P1 & O1 & T1 & N1 & A1) (P2 & O2 & T2 & N2 & A2).
  repeat split; congruence.
Qed.

Lemma follows_kept (got : list bytes) (s s' : state) :
  follows got s s' -> kept s s'.
Proof. unfold follows, kept. tauto. Qed.

(** The loop on any link: it returns, is still running, or is left by
    the [SerialException] of a read that failed; never by anything
    else. *)
Lemma while_on (l : Serial.link) (fuel : nat) :
  forall s : state,
    port_open s = true ->
    match while fuel cond (loop_body_on l) s with
    | Returned _ s' => kept s s'
    | Unfinished s' => kept s s'
    | Raised e s' =>
      e = SerialException /\ kept s s'
      /\ exists k, reads s' = S k /\ Serial.read_fails l k = true
    end.
Proof.
  induction fuel as [|fuel IH]; intros s Hopen; simpl while.
  - destruct (stop_condition s <=? 1990); now apply kept_refl.
  - destruct (stop_condition s <=? 1990); [|now apply kept_refl].
    destruct (Serial.read_fails l (reads s)) eqn:F.
    + rewrite (loop_body_on_fault l s Hopen F).
      split; [reflexivity|]. split.
      * unfold kept. simpl. auto.
      * exists (reads s). auto.
    + rewrite (loop_body_on_holds l s F).
      destruct (loop_body_step s Hopen) as (s1 & Hrun & Hf & _).
      rewrite Hrun. apply follows_kept in Hf.
      assert (Hopen1 : port_open s1 = true) by apply Hf.
      specialize (IH s1 Hopen1).
      destruct (while fuel cond (loop_body_on l) s1) as [[] s2|e s2|s2].
      * now apply (kept_trans s s1 s2).
      * destruct IH as (He & Hk & Hr).
        split; [exact He|]. split; [now apply (kept_trans s s1 s2)|exact Hr].
      * now apply (kept_trans s s1 s2).
Qed.

(** A loop that returned on some link met no fault: it is the loop on a
    link that holds. *)
Lemma while_on_returned (l : Serial.link) (fuel : nat) :
  forall s s' : state,
    while fuel cond (loop_body_on l) s = Returned tt s' ->
    while fuel cond loop_body s = Returned tt s'.
Proof.
  induction fuel as [|fuel IH]; intros s s'; simpl while.
  - auto.
  - destruct (stop_condition s <=? 1990); [|auto].
    destruct (Serial.read_fails l (reads s)) eqn:F.
    + unfold loop_body_on, try_except, bind, Serial.readline.
      rewrite F. destruct (port_open s); discriminate.
    + rewrite (loop_body_on_holds l s F).
      destruct (loop_body s) as [[] s1|e s1|s1]; auto.
Qed.

(** The session on any link, from the machine before the run. *)
Lemma acquisition_on_refused (l : Serial.link) (fuel : nat)
      (available : list string) (lines : list bytes) :
  ~ In serial_port available ->
  acquisition_on l fuel (boot available lines)
  = Raised SerialException (set_opens 1 (boot available lines)).
Proof.
  intros Hn. unfold acquisition_on, bind, Serial.Serial.
  destruct (in_dec string_dec serial_port (ports (boot available lines)))
    as [Hin|_]; [|reflexivity].
  exfalso. apply Hn. exact Hin.
Qed.

Lemma acquisition_on_write_fault (l : Serial.link) (fuel : nat)
      (available : list string) (lines : list bytes) :
  In serial_port available ->
  Serial.write_fails l = true ->
  acquisition_on l fuel (boot available lines)
  = Raised SerialException
           (set_port_open true (set_opens 1 (boot available lines))).
Proof.
  intros Hin Hw. unfold acquisition_on, bind, Serial.Serial, Serial.write.
  destruct (in_dec string_dec serial_port (ports (boot available lines)))
    as [_|Hn]; [|exfalso; apply Hn; exact Hin].
  simpl. rewrite Hw. reflexivity.
Qed.

Lemma acquisition_on_armed (l : Serial.link) (fuel : nat)
      (available : list string) (lines : list bytes) :
  In serial_port available ->
  Serial.write_fails l = false ->
  acquisition_on l fuel (boot available lines)
  = (while fuel cond (loop_body_on l) ;; report)%py (armed available lines).
Proof.
  intros Hin Hw. unfold acquisition_on, report, bind, Serial.Serial,
                   Serial.write.
  destruct (in_dec string_dec serial_port (ports (boot available lines)))
    as [_|Hn]; [|exfalso; apply Hn; exact Hin].
  simpl. rewrite Hw. reflexivity.
Qed.

(** Every outcome of the session on any link. *)
Lemma acquisition_on_outcome (l : Serial.link) (fuel : nat)
      (available : list string) (lines : list bytes) :
  match acquisition_on l fuel (boot available lines) with
  | Returned _ s =>
    In serial_port available /\ Serial.write_fails l = false
    /\ kept (armed available lines) s
    /\ acquisition fuel (boot available lines)
       = acquisition_on l fuel (boot available lines)
  | Unfinished s =>
    In serial_port available /\ Serial.write_fails l = false
    /\ kept (armed available lines) s
  | Raised e s =>
    e = SerialException
    /\ (~ In serial_port available
        /\ s = set_opens 1 (boot available lines)
        \/ In serial_port available /\ Serial.write_fails l = true
           /\ s = set_port_open true (set_opens 1 (boot available lines))
        \/ In serial_port available /\ Serial.write_fails l = false
           /\ kept (armed available lines) s
           /\ exists k, reads s = S k /\ Serial.read_fails l k = true)
  end.
Proof.
  destruct (in_dec string_dec serial_port available) as [Hin|Hn].
  2:{ rewrite (acquisition_on_refused l fuel available lines Hn).
      split; [reflexivity|]. left. auto. }
  destruct (Serial.write_fails l) eqn:Hw.
  { rewrite (acquisition_on_write_fault l fuel available lines Hin Hw).
    split; [reflexivity|]. right. left. auto. }
  assert (Hon : acquisition_on l fuel (boot available lines)
                = match while fuel cond (loop_body_on l)
                              (armed available lines) with
                  | Returned _ s1 => report s1
                  | Raised e s1 => Raised e s1
                  | Unfinished s1 => Unfinished s1
                  end).
  { rewrite (acquisition_on_armed l fuel available lines Hin Hw).
    reflexivity. }
  assert (Hst : acquisition fuel (boot available lines)
                = match while fuel cond loop_body (armed available lines) with
                  | Returned _ s1 => report s1
                  | Raised e s1 => Raised e s1
                  | Unfinished s1 => Unfinished s1
                  end).
  { rewrite (acquisition_armed fuel available lines Hin). reflexivity. }
  pose proof (while_on l fuel (armed available lines) eq_refl) as H.
  destruct (while fuel cond (loop_body_on l) (armed available lines))
    as [[] s1|e s1|s1] eqn:EW.
  - rewrite (while_on_returned l fuel _ _ EW) in Hst.
    destruct (report_returns s1) as (c & Hc). rewrite Hc in Hon, Hst.
    rewrite Hon. split; [exact Hin|]. split; [reflexivity|].
    split; [|exact Hst].
    unfold kept in *. simpl. exact H.
  - rewrite Hon. destruct H as (He & Hk & Hr). split; [exact He|].
    right. right. auto.
  - rewrite Hon. auto.
Qed.

(** The whole function on any link: the six calls on the axes and the
    release of the connection follow a session that returned, and only
    that. *)
Lemma plot_example_on_outcome (l : Serial.link) (fuel : nat)
      (xlabel ylabel : string) (s : state) :
  plot_example_on l fuel xlabel ylabel s
  = match acquisition_on l fuel s with
    | Returned _ s' =>
      Returned tt (set_port_open false
                     (set_axes (axes s' ++ drawing xlabel ylabel s') s'))
    | Raised e s' => Raised e s'
    | Unfinished s' => Unfinished s'
    end.
Proof.
  unfold plot_example_on, bind.
  destruct (acquisition_on l fuel s) as [[] s'|e s'|s'];
    [|reflexivity|reflexivity].
  rewrite TheoryFacts.overlay_returns. reflexivity.
Qed.

End LinkFacts.

(** ** The acquisition session *)

Module AcquisitionClaims.
Import Text PyFloat Exn Machine IO Lab0 Run LoopFacts.
Local Open Scope Z_scope.

(** C1, as stated, fails: on one malformed line followed by two hundred
    well-formed ones the counter is still 0 after the first read attempt,
    and the session returns after 201 read attempts, not 200. *)
Lemma failed_attempt_is_not_counted :
  stop_condition (final (acquisition 1 (lab one_bad_then_200))) = 0
  /\ reads (final (acquisition 1 (lab one_bad_then_200))) = 1%nat
  /\ returned (acquisition 1000 (lab one_bad_then_200)) = true
  /\ reads (final (acquisition 1000 (lab one_bad_then_200))) = 201%nat.
Proof. repeat split; vm_compute; reflexivity. Qed.

(** C1, amended: the Termination Counter advances by 10 on the read
    attempts whose line parses and stays put on the others, so the session
    returns at the two-hundredth well-formed line, after as many read
    attempts as that takes. With 199 samples in [pre] and [l] well-formed:
    after [n <= |pre|] reads the loop is still running with the counter at
    ten times the samples read so far; with enough fuel the session returns
    after [|pre| + 1] reads, the counter at 2000 and 200 samples held. *)
Theorem session_returns_at_200th_sample
        (pre : list bytes) (l : bytes) (post : list bytes) (n fuel : nat) :
  List.length (samples pre) = 199%nat ->
  accepted l = true ->
  (n <= List.length pre)%nat ->
  (List.length pre < fuel)%nat ->
  (exists s, acquisition n (lab (pre ++ l :: post)) = Unfinished s
             /\ reads s = n
             /\ stop_condition s
                = 10 * Z.of_nat (List.length (samples (firstn n pre))))
  /\ (exists s, acquisition fuel (lab (pre ++ l :: post)) = Returned tt s
                /\ reads s = S (List.length pre)
                /\ stop_condition s = 2000
                /\ List.length (times s) = 200%nat
                /\ rx s = post).
Proof.
  intros Hpre Hl Hn Hfuel. unfold lab. split.
  - destruct (acquisition_still_running n [serial_port] (pre ++ l :: post)
                port_in_lab) as (s & Hrun & Hf & _).
    { rewrite incoming_within by exact Hn.
      pose proof (samples_firstn_le n pre). lia. }
    exists s. split; [exact Hrun|].
    rewrite incoming_within in Hf by exact Hn.
    destruct Hf as (_ & _ & _ & _ & _ & Hr & _ & _ & Hc).
    split.
    + rewrite Hr. simpl reads. rewrite length_firstn. lia.
    + rewrite Hc. reflexivity.
  - rewrite (acquisition_armed fuel _ _ port_in_lab).
    replace fuel with (List.length pre + S (fuel - S (List.length pre)))%nat
      by lia.
    destruct (while_steps (List.length pre)
                (armed [serial_port] (pre ++ l :: post))
                (S (fuel - S (List.length pre))) eq_refl)
      as (s1 & Hf1 & Hrx1 & Hw).
    { simpl rx. rewrite incoming_within by lia.
      rewrite firstn_all, Hpre. simpl stop_condition. lia. }
    simpl rx in *. rewrite incoming_within in Hf1 by lia.
    rewrite firstn_all in Hf1.
    rewrite skipn_app, skipn_all, Nat.sub_diag in Hrx1. simpl in Hrx1.
    destruct Hf1 as (P1 & O1 & T1 & N1 & A1 & R1 & Ti1 & V1 & C1).
    simpl stop_condition in C1. simpl times in Ti1. simpl reads in R1.
    destruct (loop_body_step s1 O1) as (s2 & Hrun2 & Hf2 & Hrx2).
    rewrite Hrx1 in Hf2, Hrx2. simpl tl in Hrx2.
    destruct Hf2 as (P2 & O2 & T2 & N2 & A2 & R2 & Ti2 & V2 & C2).
    simpl hd in *.
    assert (Hone : List.length (samples [l]) = 1%nat).
    { rewrite samples_one. unfold accepted in Hl.
      destruct (parse_line l); [reflexivity|discriminate]. }
    assert (Hstop : stop_condition s2 = 2000).
    { rewrite C2, C1, Hone, Hpre. reflexivity. }
    assert (Hloop : while (S (fuel - S (List.length pre)))
                          (fun s => stop_condition s <=? 1990) loop_body s1
                    = Returned tt s2).
    { simpl while.
      replace (stop_condition s1 <=? 1990) with true
        by (symmetry; apply Z.leb_le; rewrite C1, Hpre; lia).
      rewrite Hrun2. apply while_exit. lia. }
    rewrite Hloop in Hw.
    rewrite (bind_returned _ _ _ _ _ Hw).
    destruct (report_returns s2) as (c & Hc). rewrite Hc.
    exists (set_console c s2). split; [reflexivity|]. simpl.
    split; [rewrite R2, R1; simpl; lia|].
    split; [exact Hstop|].
    split; [|exact Hrx2].
    rewrite Ti2, Ti1. rewrite !length_app, !length_map, Hone, Hpre.
    reflexivity.
Qed.

(** The amended C1 on one malformed line and two hundred well-formed
    ones. *)
Lemma session_returns_at_200th_sample_witness :
  List.length (samples (b "garbage" :: repeat (b "1,2") 199)) = 199%nat
  /\ accepted (b "1,2") = true
  /\ (1 <= List.length (b "garbage" :: repeat (b "1,2") 199))%nat
  /\ (List.length (b "garbage" :: repeat (b "1,2") 199) < 300)%nat
  /\ (exists s, acquisition 1 (lab one_bad_then_200) = Unfinished s
                /\ reads s = 1%nat /\ stop_condition s = 0)
  /\ (exists s, acquisition 300 (lab one_bad_then_200) = Returned tt s
                /\ reads s = 201%nat
                /\ stop_condition s = 2000
                /\ List.length (times s) = 200%nat
                /\ rx s = []).
Proof.
  assert (H1 : List.length (samples (b "garbage" :: repeat (b "1,2") 199))
               = 199%nat) by (vm_compute; reflexivity).
  assert (H2 : accepted (b "1,2") = true) by (vm_compute; reflexivity).
  assert (H3 : (1 <= List.length (b "garbage" :: repeat (b "1,2") 199))%nat)
    by (vm_compute; lia).
  assert (H4 : (List.length (b "garbage" :: repeat (b "1,2") 199) < 300)%nat)
    by (vm_compute; lia).
  split; [exact H1|]. split; [exact H2|]. split; [exact H3|].
  split; [exact H4|].
  exact (session_returns_at_200th_sample
           (b "garbage" :: repeat (b "1,2") 199) (b "1,2") [] 1 300
           H1 H2 H3 H4).
Defined.

(** C2, as stated, fails: with the port opened and the link failing at
    the third read of the scenario, a [SerialException] leaves
    [plot_example] after three reads, and the connection is still open
    when it does. *)
Lemma handle_open_after_read_fault :
  raised_with (plot_example_on (faulty_at 2) 10 "Time (ms)" "Voltage (V)"
                               (lab scenario)) = Some SerialException
  /\ opens (final (plot_example_on (faulty_at 2) 10 "Time (ms)" "Voltage (V)"
                                   (lab scenario))) = 1%nat
  /\ reads (final (plot_example_on (faulty_at 2) 10 "Time (ms)" "Voltage (V)"
                                   (lab scenario))) = 3%nat
  /\ port_open (final (plot_example_on (faulty_at 2) 10 "Time (ms)"
                                       "Voltage (V)" (lab scenario))) = true.
Proof. repeat split; vm_compute; reflexivity. Qed.

(** C2, amended: no statement of the function closes the Session Handle;
    it is released only by returning. On every link and every stream:
    when [plot_example] returns, the port that was opened once is closed
    as the call returns (the runtime finalises the local connection);
    when an exception leaves it, the port is open exactly if it had been
    opened, so an error after the opening leaves the handle open; while
    the loop is still running the port is open. *)
Theorem handle_released_only_by_return
        (l : Serial.link) (available : list string) (lines : list bytes)
        (fuel : nat) (xlabel ylabel : string) :
  match plot_example_on l fuel xlabel ylabel (boot available lines) with
  | Returned _ s => port_open s = false /\ opens s = 1%nat
  | Raised _ s =>
    opens s = 1%nat /\ (port_open s = true <-> In serial_port available)
  | Unfinished s => port_open s = true /\ opens s = 1%nat
  end.
Proof.
  rewrite LinkFacts.plot_example_on_outcome.
  pose proof (LinkFacts.acquisition_on_outcome l fuel available lines) as H.
  destruct (acquisition_on l fuel (boot available lines)) as [[] s|e s|s].
  - destruct H as (_ & _ & (_ & _ & _ & N & _) & _). simpl. auto.
  - destruct H as (_ & [(Hn & ->)|[(Hin & _ & ->)|(Hin & _ & K & _)]]).
    + simpl. split; [reflexivity|]. split; [discriminate|contradiction].
    + simpl. split; [reflexivity|]. split; auto.
    + destruct K as (_ & O & _ & N & _). rewrite O, N. simpl.
      split; [reflexivity|]. split; auto.
  - destruct H as (_ & _ & (_ & O & _ & N & _)). rewrite O, N. simpl. auto.
Qed.



(** C4, as stated, fails: fed the five lines of the scenario and nothing
    more, the session never returns a series, whatever the fuel. *)
Lemma scenario_never_returns :
  ~ exists fuel s, acquisition fuel (lab scenario) = Returned tt s.
Proof.
  intros (fuel & s & H).
  destruct (starved fuel [serial_port] scenario port_in_lab) as (s' & H').
  - vm_compute. lia.
  - unfold lab in H. rewrite H' in H. discriminate H.
Qed.

(** C4, amended: once the five lines of the scenario have been read,
    whatever follows them, the series holds exactly (12, 1.5) and
    (45, 2.1) in arrival order, the three malformed lines were dropped
    with a diagnostic each and no exception, and the loop is still
    running with the counter at 20: the session returns only at the
    two-hundredth well-formed line. *)
Theorem scenario_after_five_reads (rest : list bytes) :
  exists s,
    acquisition 5 (lab (scenario ++ rest)) = Unfinished s
    /\ combine (times s) (volts s)
       = [(Dec false 12 0, Dec false 15 (-1));
          (Dec false 45 0, Dec false 21 (-1))]
    /\ map value (times s) = [Some (12 # 1); Some (45 # 1)]
    /\ map value (volts s) = [Some (3 # 2); Some (21 # 10)]
    /\ diagnostics s = 3%nat
    /\ reads s = 5%nat
    /\ rx s = rest
    /\ stop_condition s = 20.
Proof.
  exists (final (acquisition 5 (lab (scenario ++ rest)))).
  split; [apply unfinished_final; vm_compute; reflexivity|].
  repeat (split; [vm_compute; reflexivity|]).
  vm_compute; reflexivity.
Qed.

(** C5: when the port cannot be opened, the constructor's
    [SerialException] (the spec's DeviceUnavailable) leaves
    [plot_example] at once: one attempt to open, nothing written or
    read, no sample list filled, nothing printed, the plot untouched. *)
Theorem unavailable_port_raises
        (available : list string) (lines : list bytes) (fuel : nat)
        (xlabel ylabel : string) :
  ~ In serial_port available ->
  plot_example fuel xlabel ylabel (boot available lines)
  = Raised SerialException (set_opens 1 (boot available lines))
  /\ acquisition fuel (boot available lines)
     = Raised SerialException (set_opens 1 (boot available lines))
  /\ times (set_opens 1 (boot available lines)) = []
  /\ volts (set_opens 1 (boot available lines)) = []
  /\ axes (set_opens 1 (boot available lines)) = []
  /\ console (set_opens 1 (boot available lines)) = []
  /\ tx (set_opens 1 (boot available lines)) = []
  /\ reads (set_opens 1 (boot available lines)) = 0%nat
  /\ port_open (set_opens 1 (boot available lines)) = false.
Proof.
  intros Hn.
  split; [now apply plot_example_unavailable|].
  split; [now apply acquisition_unavailable|].
  repeat split.
Qed.

(** C5 on a machine whose only port is COM3. *)
Lemma unavailable_port_raises_witness :
  ~ In serial_port ["COM3"%string]
  /\ plot_example 10 "Time (ms)" "Voltage (V)"
                  (boot ["COM3"%string] scenario)
     = Raised SerialException (set_opens 1 (boot ["COM3"%string] scenario)).
Proof.
  assert (H : ~ In serial_port ["COM3"%string]).
  { intros [E|[]]. discriminate E. }
  split; [exact H|].
  exact (proj1 (unavailable_port_raises ["COM3"%string] scenario 10
                  "Time (ms)" "Voltage (V)" H)).
Defined.

(** C10: in every state in which the session can end or still be
    running, [times] and [volts] have the same length: they are the first
    and second components of the samples of the lines read so far, in
    arrival order. One iteration of the loop, from any state, appends one
    value to each list or leaves both as they were. *)
Theorem series_hold_complete_pairs
        (available : list string) (lines : list bytes) (fuel : nat)
        (s0 : state) :
  (List.length (times (final (acquisition fuel (boot available lines))))
   = List.length (volts (final (acquisition fuel (boot available lines))))
   /\ times (final (acquisition fuel (boot available lines)))
      = map fst (samples (incoming
                   (reads (final (acquisition fuel (boot available lines))))
                   lines))
   /\ volts (final (acquisition fuel (boot available lines)))
      = map snd (samples (incoming
                   (reads (final (acquisition fuel (boot available lines))))
                   lines)))
  /\ ((times (final (loop_body s0)) = times s0
       /\ volts (final (loop_body s0)) = volts s0)
      \/ exists t v, times (final (loop_body s0)) = times s0 ++ [t]
                     /\ volts (final (loop_body s0)) = volts s0 ++ [v]).
Proof.
  split.
  - destruct (in_dec string_dec serial_port available) as [Hin|Hn].
    + destruct (acquisition_follows fuel available lines Hin)
        as (n & s & _ & Hf & _ & Hend).
      assert (Hs : final (acquisition fuel (boot available lines)) = s).
      { destruct Hend as [[H _]|[H _]]; rewrite H; reflexivity. }
      rewrite Hs.
      destruct Hf as (_ & _ & _ & _ & _ & Hr & Ht & Hv & _).
      simpl in Hr, Ht, Hv. rewrite incoming_length in Hr. subst n.
      rewrite Ht, Hv, !length_map. auto.
    + rewrite (acquisition_unavailable fuel available lines Hn). simpl. auto.
  - destruct (port_open s0) eqn:Hopen.
    + destruct (loop_body_step s0 Hopen) as (s1 & Hrun & Hf & _).
      rewrite Hrun. simpl final.
      destruct Hf as (_ & _ & _ & _ & _ & _ & Ht & Hv & _).
      rewrite samples_one in Ht, Hv.
      destruct (parse_line (hd [] (rx s0))) as [[t v]|]; simpl in Ht, Hv.
      * right. exists t, v. auto.
      * left. rewrite app_nil_r in Ht, Hv. auto.
    + rewrite (loop_body_closed s0 Hopen). left. auto.
Qed.

End AcquisitionClaims.

(** ** The signal model *)

Module SignalModelClaims.
Import Exn Machine Lab0 Run TheoryFacts.
Local Open Scope R_scope.

Local Abbreviation curve := (model Theory.VMAX Theory.R Theory.C).

Lemma combine_map_nth {A B : Type} (g : A -> B) (l : list A) (k : nat) :
  nth_error (combine l (map g l)) k
  = option_map (fun a => (a, g a)) (nth_error l k).
Proof.
  revert k. induction l as [|a l IH]; intros [|k]; simpl; auto.
Qed.

Lemma series_nth (k : nat) :
  (k < 2000)%nat ->
  nth_error (combine Theory.theory_times (map curve Theory.theory_times)) k
  = Some (Z.of_nat k, curve (Z.of_nat k)).
Proof.
  intros H. rewrite combine_map_nth. unfold Theory.theory_times.
  now rewrite (range_nth 2000 k H).
Qed.

Lemma volts_nth (k : nat) :
  (k < 2000)%nat ->
  nth k (map curve Theory.theory_times) 0 = curve (Z.of_nat k).
Proof.
  intros H. apply nth_error_nth.
  rewrite nth_error_map. unfold Theory.theory_times.
  now rewrite (range_nth 2000 k H).
Qed.

Lemma curve_at_0 : curve 0 = 0.
Proof.
  unfold model. replace (- 0 / (Theory.R * Theory.C * 1000)) with 0.
  - rewrite exp_0. ring.
  - unfold Rdiv. ring.
Qed.

Lemma curve_increasing (t u : Z) : (t < u)%Z -> curve t < curve u.
Proof.
  intros H. unfold model.
  pose proof tau_pos as Htau.
  assert (Hinv : 0 < / (Theory.R * Theory.C * 1000))
    by now apply Rinv_0_lt_compat.
  assert (Hlt : - IZR u / (Theory.R * Theory.C * 1000)
                < - IZR t / (Theory.R * Theory.C * 1000)).
  { apply IZR_lt in H. unfold Rdiv.
    apply Rmult_lt_compat_r; [exact Hinv|lra]. }
  apply exp_increasing in Hlt.
  assert (Hv : 0 < Theory.VMAX) by (unfold Theory.VMAX; lra).
  apply Rmult_lt_compat_l; [exact Hv|lra].
Qed.

Lemma curve_below_peak (t : Z) : curve t < Theory.VMAX.
Proof.
  unfold model.
  pose proof (exp_pos (- IZR t / (Theory.R * Theory.C * 1000))) as He.
  assert (Hv : 0 < Theory.VMAX) by (unfold Theory.VMAX; lra).
  nra.
Qed.

(** C3: the comprehension raises nothing, and for every integer [t] in
    [[0, 2000)] its entry at index [t], paired with the time at that
    index, is [(t, peak_voltage * (1 - e^(-t / (resistance * capacitance *
    1000))))] for the constants of the function. The value depends on
    nothing but [t] and these constants. (Floats as real numbers.) *)
Theorem signal_model_follows_formula (t : Z) :
  (0 <= t < 2000)%Z ->
  exists vs : list real,
    Theory.theory_volts = inr vs
    /\ nth_error (combine Theory.theory_times vs) (Z.to_nat t)
       = Some (t, model Theory.VMAX Theory.R Theory.C t).
Proof.
  intros Ht. exists (map curve Theory.theory_times).
  split; [exact theory_volts_value|].
  rewrite series_nth by lia. now rewrite Z2Nat.id by lia.
Qed.

(** C3 at [t = 1000]. *)
Lemma signal_model_follows_formula_witness :
  (0 <= 1000 < 2000)%Z
  /\ exists vs : list real,
      Theory.theory_volts = inr vs
      /\ nth_error (combine Theory.theory_times vs) (Z.to_nat 1000)
         = Some (1000%Z, model Theory.VMAX Theory.R Theory.C 1000).
Proof.
  split; [lia|]. apply (signal_model_follows_formula 1000). lia.
Defined.

(** C8: with VMAX = 3.094, R = 90.4e3 and C = 3.3e-6 the series starts
    at (0, 0), its voltages increase strictly from each index to every
    later one over the 2000 points, and the last one is below 3.094.
    (Floats as real numbers.) *)
Theorem theoretical_curve_rises_below_peak (i j : nat) :
  (i < j < 2000)%nat ->
  Theory.VMAX = 3.094 /\ Theory.R = 90.4e3 /\ Theory.C = 3.3e-6
  /\ exists vs : list real,
      Theory.theory_volts = inr vs
      /\ nth_error (combine Theory.theory_times vs) 0 = Some (0%Z, 0)
      /\ nth i vs 0 < nth j vs 0
      /\ nth 1999 vs 0 < 3.094.
Proof.
  intros Hij. repeat (split; [reflexivity|]).
  exists (map curve Theory.theory_times).
  split; [exact theory_volts_value|].
  split; [|split].
  - rewrite (series_nth 0) by lia. simpl Z.of_nat. now rewrite curve_at_0.
  - rewrite !volts_nth by lia. apply curve_increasing. lia.
  - rewrite volts_nth by lia. apply (curve_below_peak (Z.of_nat 1999)).
Qed.

(** C8 between the first and the last point. *)
Lemma theoretical_curve_rises_below_peak_witness :
  (0 < 1999 < 2000)%nat
  /\ exists vs : list real,
      Theory.theory_volts = inr vs
      /\ nth_error (combine Theory.theory_times vs) 0 = Some (0%Z, 0)
      /\ nth 0 vs 0 < nth 1999 vs 0
      /\ nth 1999 vs 0 < 3.094.
Proof.
  split; [lia|].
  apply (theoretical_curve_rises_below_peak 0 1999). lia.
Defined.

End SignalModelClaims.

(** ** Parsing a line *)

Module ParsingClaims.
Import Text PyFloat Lab0 Run.
Local Open Scope N_scope.

Local Abbreviation nocomma := (fun c : N => negb (c =? comma)).

Lemma forallb_weaken (p q : N -> bool) (l : str) :
  (forall c, p c = true -> q c = true) ->
  forallb p l = true -> forallb q l = true.
Proof.
  intros Hpq. induction l as [|c l IH]; simpl; [reflexivity|].
  intros H. apply andb_prop in H as [Hc Hl].
  rewrite (Hpq c Hc), (IH Hl). reflexivity.
Qed.

Lemma forallb_reversed (p : N -> bool) (l : str) :
  forallb p (rev l) = forallb p l.
Proof.
  induction l as [|c l IH]; simpl; [reflexivity|].
  rewrite forallb_app, IH. simpl. rewrite andb_true_r. apply andb_comm.
Qed.

Lemma lstrip_all (p : N -> bool) (w s : str) :
  forallb p w = true -> lstrip p (w ++ s) = lstrip p s.
Proof.
  induction w as [|c w IH]; simpl; intros H; [reflexivity|].
  apply andb_prop in H as [Hc Hw]. rewrite Hc. now apply IH.
Qed.

Lemma lstrip_only (p : N -> bool) (w : str) :
  forallb p w = true -> lstrip p w = [].
Proof.
  intros H. rewrite <- (app_nil_r w). now rewrite lstrip_all.
Qed.

Lemma lstrip_stop (p : N -> bool) (c : N) (r : str) :
  p c = false -> lstrip p (c :: r) = c :: r.
Proof. simpl. now intros ->. Qed.

Lemma lstrip_app (p : N -> bool) (a w : str) :
  forallb p w = true ->
  lstrip p (a ++ w) = if forallb p a then [] else lstrip p a ++ w.
Proof.
  intros Hw. induction a as [|c a IH]; simpl.
  - now apply lstrip_only.
  - destruct (p c); simpl; [exact IH|reflexivity].
Qed.

Lemma rstrip_all (p : N -> bool) (s w : str) :
  forallb p w = true -> rstrip p (s ++ w) = rstrip p s.
Proof.
  intros H. unfold rstrip. rewrite rev_app_distr, lstrip_all; [reflexivity|].
  now rewrite forallb_reversed.
Qed.

Lemma rstrip_stop (p : N -> bool) (s : str) (c : N) :
  p c = false -> rstrip p (s ++ [c]) = s ++ [c].
Proof.
  intros H. unfold rstrip. rewrite rev_app_distr. simpl rev at 2.
  simpl app. rewrite lstrip_stop by exact H. simpl.
  now rewrite rev_involutive.
Qed.

Lemma split_at (f g : str) :
  forallb nocomma f = true ->
  split comma (f ++ comma :: g) = f :: split comma g.
Proof.
  induction f as [|c f IH]; simpl; intros H; [reflexivity|].
  apply andb_prop in H as [Hc Hf].
  destruct (c =? comma); [discriminate Hc|].
  now rewrite (IH Hf).
Qed.

Lemma split_plain (f : str) :
  forallb nocomma f = true -> split comma f = [f].
Proof.
  induction f as [|c f IH]; simpl; intros H; [reflexivity|].
  apply andb_prop in H as [Hc Hf].
  destruct (c =? comma); [discriminate Hc|].
  now rewrite (IH Hf).
Qed.

Lemma cspace_bound (c : N) : is_cspace c = true -> c = 32 \/ 9 <= c <= 13.
Proof.
  unfold is_cspace. intros H. apply orb_prop in H as [H|H].
  - left. now apply N.eqb_eq.
  - right. apply andb_prop in H as [H1 H2].
    apply N.leb_le in H1, H2. lia.
Qed.

Lemma cspace_isspace (c : N) : is_cspace c = true -> isspace c = true.
Proof.
  intros H. apply cspace_bound in H as [->|[H1 H2]]; [reflexivity|].
  unfold isspace. apply N.leb_le in H1, H2. now rewrite H1, H2.
Qed.

Lemma cspace_nocomma (c : N) : is_cspace c = true -> nocomma c = true.
Proof.
  intros H. apply cspace_bound in H as [->|[H1 H2]]; [reflexivity|].
  apply negb_true_iff, N.eqb_neq. unfold comma. lia.
Qed.

Lemma to_ascii_cspace (c : N) : is_cspace c = true -> to_ascii c = Some c.
Proof.
  intros H. unfold to_ascii.
  replace (c <? 127) with true; [reflexivity|].
  symmetry. apply N.ltb_lt. apply cspace_bound in H. lia.
Qed.

Lemma transform_cspace (w : str) :
  forallb is_cspace w = true -> transform w = Some w.
Proof.
  induction w as [|c w IH]; simpl; intros H; [reflexivity|].
  apply andb_prop in H as [Hc Hw].
  now rewrite (to_ascii_cspace c Hc), (IH Hw).
Qed.

Lemma transform_app (a c : str) :
  transform (a ++ c)
  = match transform a, transform c with
    | Some a', Some c' => Some (a' ++ c')
    | _, _ => None
    end.
Proof.
  induction a as [|x a IH]; simpl.
  - now destruct (transform c).
  - destruct (to_ascii x); [|reflexivity]. rewrite IH.
    destruct (transform a), (transform c); reflexivity.
Qed.

(** [float] ignores spaces, tabs and line breaks around its text. *)
Lemma float_pad (w1 x w2 : str) :
  forallb is_cspace w1 = true -> forallb is_cspace w2 = true ->
  float (w1 ++ x ++ w2) = float x.
Proof.
  intros H1 H2. unfold float.
  rewrite !transform_app, (transform_cspace w1 H1), (transform_cspace w2 H2).
  destruct (transform x) as [a|]; [|reflexivity].
  rewrite (lstrip_all is_cspace w1 (a ++ w2) H1).
  rewrite (lstrip_app is_cspace a w2 H2).
  destruct (forallb is_cspace a) eqn:Ea.
  - now rewrite (lstrip_only is_cspace a Ea).
  - now rewrite rstrip_all.
Qed.

Lemma plain_nocomma (x : str) :
  forallb plain x = true -> forallb nocomma x = true.
Proof.
  apply forallb_weaken. unfold plain. intros c H.
  now apply andb_prop in H as [_ H].
Qed.

(** What [strip] leaves to the right of the comma. *)
Lemma rstrip_second_field (A w3 y w4 : str) :
  forallb is_cspace w3 = true -> forallb is_cspace w4 = true ->
  forallb plain y = true ->
  exists y', rstrip isspace (A ++ comma :: w3 ++ y ++ w4) = A ++ comma :: y'
             /\ forallb nocomma y' = true /\ float y' = float y.
Proof.
  intros H3 H4 Hy.
  pose proof (forallb_weaken _ _ w3 cspace_isspace H3) as S3.
  pose proof (forallb_weaken _ _ w4 cspace_isspace H4) as S4.
  destruct y as [|c0 y0] using rev_ind.
  - exists []. split; [|split; reflexivity].
    replace (A ++ comma :: w3 ++ [] ++ w4)
      with ((A ++ [comma]) ++ (w3 ++ w4))
      by (rewrite <- app_assoc; reflexivity).
    rewrite rstrip_all by (rewrite forallb_app, S3, S4; reflexivity).
    rewrite rstrip_stop by reflexivity.
    reflexivity.
  - clear IHy0. exists (w3 ++ y0 ++ [c0]).
    rewrite forallb_app in Hy. apply andb_prop in Hy as [Hy0 Hc0].
    simpl in Hc0. rewrite andb_true_r in Hc0.
    assert (Hsp : isspace c0 = false).
    { unfold plain in Hc0. apply andb_prop in Hc0 as [Hc0 _].
      now apply negb_true_iff. }
    split; [|split].
    + replace (A ++ comma :: w3 ++ (y0 ++ [c0]) ++ w4)
        with (((A ++ comma :: w3 ++ y0) ++ [c0]) ++ w4)
        by (repeat (rewrite <- ?app_assoc; simpl); reflexivity).
      rewrite rstrip_all by exact S4.
      rewrite rstrip_stop by exact Hsp.
      repeat (rewrite <- ?app_assoc; simpl). reflexivity.
    + rewrite !forallb_app.
      rewrite (forallb_weaken _ _ w3 cspace_nocomma H3).
      rewrite (plain_nocomma y0 Hy0). simpl.
      unfold plain in Hc0. apply andb_prop in Hc0 as [_ Hc0].
      now rewrite Hc0.
    + rewrite <- (app_nil_r (y0 ++ [c0])) at 1.
      now apply float_pad.
Qed.

(** What [strip] leaves of a padded line: two comma-free fields whose
    floats are those of the bare fields. *)
Lemma strip_padded (w1 x w2 w3 y w4 : str) :
  forallb is_cspace w1 = true -> forallb is_cspace w2 = true ->
  forallb is_cspace w3 = true -> forallb is_cspace w4 = true ->
  forallb plain x = true -> forallb plain y = true ->
  exists x' y',
    strip (w1 ++ x ++ w2 ++ comma :: w3 ++ y ++ w4) = x' ++ comma :: y'
    /\ forallb nocomma x' = true /\ forallb nocomma y' = true
    /\ float x' = float x /\ float y' = float y.
Proof.
  intros H1 H2 H3 H4 Hx Hy. unfold strip.
  rewrite lstrip_all by (now apply (forallb_weaken _ _ w1 cspace_isspace)).
  destruct x as [|c x0].
  - simpl app.
    rewrite lstrip_all by (now apply (forallb_weaken _ _ w2 cspace_isspace)).
    rewrite lstrip_stop by reflexivity.
    destruct (rstrip_second_field [] w3 y w4 H3 H4 Hy) as (y' & E & Ny & Fy).
    simpl app in E. exists [], y'. rewrite E. auto.
  - simpl in Hx. apply andb_prop in Hx as [Hc Hx0].
    assert (Hsp : isspace c = false).
    { unfold plain in Hc. apply andb_prop in Hc as [Hc _].
      now apply negb_true_iff. }
    simpl app. rewrite lstrip_stop by exact Hsp.
    destruct (rstrip_second_field ((c :: x0) ++ w2) w3 y w4 H3 H4 Hy)
      as (y' & E & Ny & Fy).
    rewrite <- app_assoc in E. simpl app in E.
    exists ((c :: x0) ++ w2), y'. simpl app. rewrite E.
    split; [now rewrite <- app_assoc|].
    split; [|split; [exact Ny|split; [|exact Fy]]].
    + change (forallb nocomma ((c :: x0) ++ w2) = true).
      rewrite forallb_app.
      rewrite (forallb_weaken _ _ w2 cspace_nocomma H2), andb_true_r.
      apply plain_nocomma. simpl. now rewrite Hc, Hx0.
    + change (float ([] ++ (c :: x0) ++ w2) = float (c :: x0)).
      now apply float_pad.
Qed.

Lemma parse_padded (w1 x w2 w3 y w4 : str) :
  forallb is_cspace w1 = true -> forallb is_cspace w2 = true ->
  forallb is_cspace w3 = true -> forallb is_cspace w4 = true ->
  forallb plain x = true -> forallb plain y = true ->
  parse_text (w1 ++ x ++ w2 ++ comma :: w3 ++ y ++ w4)
  = match float x, float y with
    | Some t, Some v => Some (t, v)
    | _, _ => None
    end.
Proof.
  intros H1 H2 H3 H4 Hx Hy.
  destruct (strip_padded w1 x w2 w3 y w4 H1 H2 H3 H4 Hx Hy)
    as (x' & y' & E & Nx & Ny & Fx & Fy).
  unfold parse_text. rewrite E, (split_at x' y' Nx), (split_plain y' Ny).
  now rewrite Fx, Fy.
Qed.

(** C9, as stated, fails: the line "12 , 1.5", with a space on each side
    of the comma, is accepted and yields the sample (12, 1.5). *)
Lemma inner_whitespace_is_accepted :
  accepted (b "12 , 1.5") = true
  /\ parse_line (b "12 , 1.5") = Some (Dec false 12 0, Dec false 15 (-1)).
Proof. split; vm_compute; reflexivity. Qed.

(** C9, amended: line parsing tolerates whitespace around each of the two
    fields as well as around the whole line, because [float] strips it.
    For fields [x] and [y] free of whitespace and commas, padding either
    side of either field with spaces, tabs or line breaks gives the
    result of the bare line [x,y], which is a sample exactly when both
    fields are floats; "12 , 1.5" yields (12, 1.5). Whitespace inside a
    number is not tolerated: "1 2,1.5" is rejected. *)
Theorem whitespace_around_fields_is_tolerated (w1 x w2 w3 y w4 : str) :
  forallb is_cspace w1 = true -> forallb is_cspace w2 = true ->
  forallb is_cspace w3 = true -> forallb is_cspace w4 = true ->
  forallb plain x = true -> forallb plain y = true ->
  parse_text (w1 ++ x ++ w2 ++ comma :: w3 ++ y ++ w4)
  = parse_text (x ++ comma :: y)
  /\ parse_text (x ++ comma :: y)
     = match float x, float y with
       | Some t, Some v => Some (t, v)
       | _, _ => None
       end
  /\ parse_line (b "12 , 1.5") = Some (Dec false 12 0, Dec false 15 (-1))
  /\ parse_line (b "1 2,1.5") = None.
Proof.
  intros H1 H2 H3 H4 Hx Hy.
  assert (Hbare : parse_text (x ++ comma :: y)
                  = match float x, float y with
                    | Some t, Some v => Some (t, v)
                    | _, _ => None
                    end).
  { pose proof (parse_padded [] x [] [] y [] eq_refl eq_refl eq_refl eq_refl
                             Hx Hy) as H.
    simpl app in H. rewrite app_nil_r in H. exact H. }
  split; [|split; [exact Hbare|split; vm_compute; reflexivity]].
  rewrite Hbare. now apply parse_padded.
Qed.

(** The amended C9 on " 12 , 1.5" followed by a line break. *)
Lemma whitespace_around_fields_is_tolerated_witness :
  forallb is_cspace (text " ") = true
  /\ forallb is_cspace [10] = true
  /\ forallb plain (text "12") = true
  /\ forallb plain (text "1.5") = true
  /\ parse_text (text " " ++ text "12" ++ text " "
                 ++ comma :: text " " ++ text "1.5" ++ [10])
     = parse_text (text "12" ++ comma :: text "1.5")
  /\ parse_text (text "12" ++ comma :: text "1.5")
     = Some (Dec false 12 0, Dec false 15 (-1)).
Proof.
  assert (H1 : forallb is_cspace (text " ") = true) by reflexivity.
  assert (H4 : forallb is_cspace [10] = true) by reflexivity.
  assert (Hx : forallb plain (text "12") = true) by reflexivity.
  assert (Hy : forallb plain (text "1.5") = true) by reflexivity.
  split; [exact H1|]. split; [exact H4|]. split; [exact Hx|].
  split; [exact Hy|].
  destruct (whitespace_around_fields_is_tolerated
              (text " ") (text "12") (text " ") (text " ") (text "1.5") [10]
              H1 H1 H1 H4 Hx Hy) as (Hpad & Hbare & _).
  split; [exact Hpad|exact Hbare].
Defined.

End ParsingClaims.

(** ** More on the acquisition session *)

Module SessionFacts.
Import Text PyFloat Exn Machine IO Lab0 Run LoopFacts.
Local Open Scope Z_scope.

Local Abbreviation cond := (fun s : state => stop_condition s <=? 1990).

Lemma returned_final (o : outcome unit) :
  returned o = true -> o = Returned tt (final o).
Proof.
  destruct o as [[] s|e s|s]; simpl; intros H;
    [reflexivity|discriminate H|discriminate H].
Qed.

Lemma samples_one_le (l : bytes) : (List.length (samples [l]) <= 1)%nat.
Proof. rewrite samples_one. destruct (parse_line l); simpl; lia. Qed.

(** No more samples than lines read. *)
Lemma samples_at_most_reads (n : nat) (pending : list bytes) :
  (List.length (samples (incoming n pending)) <= n)%nat.
Proof.
  revert pending. induction n as [|n IH]; intros pending; cbn [incoming];
    [simpl; lia|].
  rewrite samples_cons, length_app.
  pose proof (samples_one_le (hd [] pending)). specialize (IH (tl pending)).
  lia.
Qed.

(** The counter never passes 2000: the loop is entered at 1990 at most
    and one iteration adds ten at most. *)
Lemma while_bounded (fuel : nat) :
  forall s : state,
    port_open s = true -> stop_condition s <= 2000 ->
    stop_condition (final (while fuel cond loop_body s)) <= 2000.
Proof.
  induction fuel as [|fuel IH]; intros s Hopen Hle; simpl while.
  - destruct (stop_condition s <=? 1990); exact Hle.
  - destruct (stop_condition s <=? 1990) eqn:E; [|exact Hle].
    apply Z.leb_le in E.
    destruct (loop_body_step s Hopen) as (s1 & Hrun & Hf & _).
    rewrite Hrun. destruct Hf as (_ & O1 & _ & _ & _ & _ & _ & _ & C1).
    apply IH; [exact O1|].
    rewrite C1. pose proof (samples_one_le (hd [] (rx s))). lia.
Qed.

(** More fuel continues the loop from where less fuel left it. *)
Lemma while_split (n : nat) :
  forall (m : nat) (s : state),
    port_open s = true ->
    while (n + m) cond loop_body s
    = match while n cond loop_body s with
      | Unfinished s' => while m cond loop_body s'
      | o => o
      end.
Proof.
  induction n as [|n IH]; intros m s Hopen; simpl while.
  - destruct (stop_condition s <=? 1990) eqn:E; [reflexivity|].
    apply while_exit. now apply Z.leb_gt.
  - destruct (stop_condition s <=? 1990) eqn:E; [|reflexivity].
    destruct (loop_body_step s Hopen) as (s1 & Hrun & Hf & _).
    rewrite Hrun. apply IH. apply Hf.
Qed.

(** With the port available, the function entered in any state is the
    loop started from the [rearmed] state, followed by the two prints. *)
Lemma acquisition_rearmed (fuel : nat) (s : state) :
  In serial_port (ports s) ->
  acquisition fuel s = (while fuel cond loop_body ;; report)%py (rearmed s).
Proof.
  intros Hin. unfold acquisition, acquisition_on, report, bind, Serial.Serial.
  destruct (in_dec string_dec serial_port (ports s)) as [_|Hn];
    [reflexivity|].
  exfalso. apply Hn. exact Hin.
Qed.

Lemma acquisition_refused (fuel : nat) (s : state) :
  ~ In serial_port (ports s) ->
  acquisition fuel s = Raised SerialException (set_opens (S (opens s)) s).
Proof.
  intros Hn. unfold acquisition, acquisition_on, bind, Serial.Serial.
  destruct (in_dec string_dec serial_port (ports s)) as [Hin|_];
    [|reflexivity].
  exfalso. apply Hn. exact Hin.
Qed.

(** Every outcome of the session entered in any state with the port
    available. *)
Lemma acquisition_outcome (fuel : nat) (s : state) :
  In serial_port (ports s) ->
  exists n s',
    (n <= fuel)%nat
    /\ follows (incoming n (rx s)) (rearmed s) s'
    /\ rx s' = skipn n (rx s)
    /\ stop_condition s' <= 2000
    /\ final (acquisition fuel s) = s'
    /\ (acquisition fuel s = Returned tt s' /\ 1990 < stop_condition s'
        \/ acquisition fuel s = Unfinished s'
           /\ n = fuel /\ stop_condition s' <= 1990).
Proof.
  intros Hin. rewrite (acquisition_rearmed fuel s Hin).
  destruct (while_follows fuel (rearmed s) eq_refl)
    as (n & s1 & Hn & Hf & Hrx & Hend).
  pose proof (while_bounded fuel (rearmed s) eq_refl) as Hb.
  simpl stop_condition in Hb at 1. specialize (Hb ltac:(lia)).
  destruct Hend as [[H1 H2]|[H1 [H2 H3]]]; rewrite H1 in Hb; simpl in Hb.
  - rewrite (bind_returned _ _ _ _ _ H1).
    destruct (report_returns s1) as (c & Hc). rewrite Hc.
    exists n, (set_console c s1). split; [exact Hn|].
    split; [now apply follows_console|]. split; [exact Hrx|].
    split; [exact Hb|]. split; [reflexivity|].
    left. split; [reflexivity|exact H2].
  - rewrite (bind_unfinished _ _ _ _ H1).
    exists n, s1. split; [exact Hn|]. split; [exact Hf|].
    split; [exact Hrx|]. split; [exact Hb|]. split; [reflexivity|].
    right. auto.
Qed.

End SessionFacts.

Module SessionProperties.
Import Text PyFloat Exn Machine IO Lab0 Run LoopFacts SessionFacts.
Local Open Scope Z_scope.

Local Abbreviation cond := (fun s : state => stop_condition s <=? 1990).

(** Read the fields of the [rearmed] state in a hypothesis. *)
Ltac rearm H :=
  unfold rearmed in H;
  cbn [ports port_open rx tx opens reads console axes times volts
       stop_condition set_stop_condition set_volts set_times set_tx
       set_port_open set_opens app] in H;
  rewrite ?Z.add_0_l in H.

(** The whole function in terms of the session: the six calls on the
    axes and the release of the connection follow a session that
    returned, and only that. *)
Lemma plot_example_outcome (fuel : nat) (xlabel ylabel : string) (s : state) :
  plot_example fuel xlabel ylabel s
  = match acquisition fuel s with
    | Returned _ s' =>
      Returned tt (set_port_open false
                     (set_axes (axes s' ++ drawing xlabel ylabel s') s'))
    | Raised e s' => Raised e s'
    | Unfinished s' => Unfinished s'
    end.
Proof.
  apply (LinkFacts.plot_example_on_outcome Serial.steady).
Qed.

Lemma samples_lengths (ls : list bytes) :
  List.length (map fst (samples ls)) = List.length (samples ls)
  /\ List.length (map snd (samples ls)) = List.length (samples ls).
Proof. now rewrite !length_map. Qed.

(** X1: every invocation that can open the port opens it once and writes
    exactly one byte, 0x04, after which nothing more is ever written:
    in every state in which [plot_example] ends or is still running the
    written bytes are those written before, followed by 0x04. *)
Theorem one_trigger_byte_per_invocation
        (s : state) (fuel : nat) (xlabel ylabel : string) :
  In serial_port (ports s) ->
  tx (final (plot_example fuel xlabel ylabel s)) = tx s ++ [Byte.x04]
  /\ opens (final (plot_example fuel xlabel ylabel s)) = S (opens s).
Proof.
  intros Hin. rewrite plot_example_outcome.
  destruct (acquisition_outcome fuel s Hin)
    as (n & s' & _ & Hf & _ & _ & _ & Hend).
  destruct Hf as (_ & _ & T & N & _). rearm T; rearm N.
  destruct Hend as [[H _]|[H _]]; rewrite H; simpl; rewrite T, N; auto.
Qed.

(** X1 on the laboratory machine and the scenario's five lines. *)
Lemma one_trigger_byte_per_invocation_witness :
  In serial_port (ports (lab scenario))
  /\ tx (final (plot_example 7 "Time (ms)" "Voltage (V)" (lab scenario)))
     = tx (lab scenario) ++ [Byte.x04]
  /\ opens (final (plot_example 7 "Time (ms)" "Voltage (V)" (lab scenario)))
     = S (opens (lab scenario)).
Proof.
  split; [left; reflexivity|].
  apply (one_trigger_byte_per_invocation (lab scenario) 7).
  left; reflexivity.
Defined.

(** X2: every invocation starts its series afresh and keeps it bounded.
    Entered in any state with the port available (whatever [times],
    [volts] and the counter held before), in every state the session
    reaches the two lists are the samples of the lines read in this
    invocation, the counter is ten times their number, and there are at
    most 200 of them. *)
Theorem series_is_fresh_and_bounded (s : state) (fuel : nat) :
  In serial_port (ports s) ->
  times (final (acquisition fuel s))
  = map fst (samples (incoming
                        (reads (final (acquisition fuel s)) - reads s)
                        (rx s)))
  /\ volts (final (acquisition fuel s))
     = map snd (samples (incoming
                           (reads (final (acquisition fuel s)) - reads s)
                           (rx s)))
  /\ stop_condition (final (acquisition fuel s))
     = 10 * Z.of_nat (List.length (times (final (acquisition fuel s))))
  /\ (List.length (times (final (acquisition fuel s))) <= 200)%nat.
Proof.
  intros Hin.
  destruct (acquisition_outcome fuel s Hin)
    as (n & s' & _ & Hf & _ & Hb & Hfin & _).
  rewrite Hfin.
  destruct Hf as (_ & _ & _ & _ & _ & R & T & V & C).
  rearm R; rearm T; rearm V; rearm C.
  rewrite incoming_length in R.
  replace (reads s' - reads s)%nat with n by lia.
  rewrite T, V, C, length_map.
  repeat split. rewrite C in Hb. lia.
Qed.

(** X2 entered with stale samples and a stale counter in the locals. *)
Lemma series_is_fresh_and_bounded_witness :
  In serial_port
     (ports (mkState [serial_port] false scenario [] 0 0 [] []
                     [NaN; NaN] [NaN] 1500))
  /\ times (final (acquisition 5
                     (mkState [serial_port] false scenario [] 0 0 [] []
                              [NaN; NaN] [NaN] 1500)))
     = [Dec false 12 0; Dec false 45 0]
  /\ (List.length
        (times (final (acquisition 5
                         (mkState [serial_port] false scenario [] 0 0 [] []
                                  [NaN; NaN] [NaN] 1500)))) <= 200)%nat.
Proof.
  split; [left; reflexivity|].
  destruct (series_is_fresh_and_bounded
              (mkState [serial_port] false scenario [] 0 0 [] []
                       [NaN; NaN] [NaN] 1500) 5)
    as (T & _ & _ & L).
  - left; reflexivity.
  - split; [|exact L]. rewrite T. vm_compute. reflexivity.
Defined.

(** X3: a session that returns holds exactly 200 samples in each list,
    with the counter at 2000, and read at least 200 lines for them; no
    shorter and no longer series is ever returned. *)
Theorem returned_series_has_200_samples (s s' : state) (fuel : nat) :
  acquisition fuel s = Returned tt s' ->
  List.length (times s') = 200%nat
  /\ List.length (volts s') = 200%nat
  /\ stop_condition s' = 2000
  /\ (reads s + 200 <= reads s')%nat.
Proof.
  intros Hret.
  destruct (in_dec string_dec serial_port (ports s)) as [Hin|Hn].
  - destruct (acquisition_outcome fuel s Hin)
      as (n & s1 & _ & Hf & _ & Hb & _ & Hend).
    destruct Hend as [[H Hgt]|[H _]]; rewrite H in Hret;
      [|discriminate Hret].
    injection Hret as <-.
    destruct Hf as (_ & _ & _ & _ & _ & R & T & V & C).
    rearm R; rearm T; rearm V; rearm C.
    rewrite incoming_length in R.
    rewrite T, V, !length_map.
    assert (Hk : List.length (samples (incoming n (rx s))) = 200%nat)
      by lia.
    rewrite Hk in *. repeat split; [lia|].
    pose proof (samples_at_most_reads n (rx s)). lia.
  - rewrite (acquisition_refused fuel s Hn) in Hret. discriminate Hret.
Qed.

(** X3 on two hundred well-formed lines. *)
Lemma returned_series_has_200_samples_witness :
  acquisition 200 (lab two_hundred)
  = Returned tt (final (acquisition 200 (lab two_hundred)))
  /\ List.length (times (final (acquisition 200 (lab two_hundred))))
     = 200%nat
  /\ stop_condition (final (acquisition 200 (lab two_hundred))) = 2000.
Proof.
  assert (H : acquisition 200 (lab two_hundred)
              = Returned tt (final (acquisition 200 (lab two_hundred)))).
  { apply returned_final. vm_compute. reflexivity. }
  split; [exact H|].
  destruct (returned_series_has_200_samples _ _ _ H) as (L & _ & C & _).
  split; [exact L|exact C].
Defined.

(** X4: a device that sends fewer than 200 well-formed lines hangs the
    function: whatever the fuel, [plot_example] is still in its loop,
    having made one read per iteration, and has plotted nothing. *)
Theorem starved_session_never_plots
        (s : state) (fuel : nat) (xlabel ylabel : string) :
  In serial_port (ports s) ->
  (List.length (samples (rx s)) < 200)%nat ->
  exists s', plot_example fuel xlabel ylabel s = Unfinished s'
             /\ reads s' = (reads s + fuel)%nat
             /\ axes s' = axes s.
Proof.
  intros Hin Hlt. rewrite plot_example_outcome.
  destruct (acquisition_outcome fuel s Hin)
    as (n & s' & _ & Hf & _ & _ & _ & Hend).
  destruct Hf as (_ & _ & _ & _ & A & R & _ & _ & C).
  rearm A; rearm R; rearm C. rewrite incoming_length in R.
  pose proof (samples_incoming_le n (rx s)) as Hle.
  destruct Hend as [[H Hgt]|[H [Hn _]]].
  - exfalso. lia.
  - rewrite H. exists s'. subst n. auto.
Qed.

(** X4 on the scenario's five lines, forty iterations on. *)
Lemma starved_session_never_plots_witness :
  In serial_port (ports (lab scenario))
  /\ (List.length (samples (rx (lab scenario))) < 200)%nat
  /\ exists s', plot_example 40 "Time (ms)" "Voltage (V)" (lab scenario)
                = Unfinished s'
                /\ reads s' = (reads (lab scenario) + 40)%nat
                /\ axes s' = axes (lab scenario).
Proof.
  assert (H1 : In serial_port (ports (lab scenario)))
    by (left; reflexivity).
  assert (H2 : (List.length (samples (rx (lab scenario))) < 200)%nat)
    by (vm_compute; lia).
  split; [exact H1|]. split; [exact H2|].
  exact (starved_session_never_plots (lab scenario) 40
           "Time (ms)" "Voltage (V)" H1 H2).
Defined.

(** X5: the axes are touched only by an invocation whose session
    returned, and then by exactly six calls after what was there before
    (the function never clears them): the theoretical curve, the data
    points, the two labels, the grid, one draw. A session that raised
    or is still running leaves the axes as they were. *)
Theorem axes_drawn_only_on_return
        (s : state) (fuel : nat) (xlabel ylabel : string) :
  returned (plot_example fuel xlabel ylabel s)
  = returned (acquisition fuel s)
  /\ axes (final (plot_example fuel xlabel ylabel s))
     = if returned (acquisition fuel s)
       then axes s ++ drawing xlabel ylabel (final (acquisition fuel s))
       else axes s.
Proof.
  rewrite plot_example_outcome.
  destruct (in_dec string_dec serial_port (ports s)) as [Hin|Hn].
  - destruct (acquisition_outcome fuel s Hin)
      as (n & s' & _ & Hf & _ & _ & _ & Hend).
    destruct Hf as (_ & _ & _ & _ & A & _). rearm A.
    destruct Hend as [[H _]|[H _]]; rewrite H; simpl; rewrite A; auto.
  - rewrite (acquisition_refused fuel s Hn). simpl. auto.
Qed.

(** X6: the series is append-only. What the session holds after [fuel]
    iterations is a prefix of what it holds after [fuel + more]: samples
    are only ever added at the end, to both lists at once, and the reads
    only grow. *)
Theorem series_is_append_only (s : state) (fuel more : nat) :
  exists ts vs : list pyfloat,
    times (final (acquisition (fuel + more) s))
    = times (final (acquisition fuel s)) ++ ts
    /\ volts (final (acquisition (fuel + more) s))
       = volts (final (acquisition fuel s)) ++ vs
    /\ List.length ts = List.length vs
    /\ (reads (final (acquisition fuel s))
        <= reads (final (acquisition (fuel + more) s)))%nat.
Proof.
  destruct (in_dec string_dec serial_port (ports s)) as [Hin|Hn].
  - rewrite !(acquisition_rearmed _ s Hin).
    unfold bind. rewrite (while_split fuel more (rearmed s) eq_refl).
    destruct (while_follows fuel (rearmed s) eq_refl)
      as (n & s1 & _ & Hf & _ & Hend).
    destruct Hend as [[H _]|[H _]]; rewrite H.
    + exists [], []. rewrite !app_nil_r. auto.
    + assert (Hopen : port_open s1 = true) by apply Hf.
      destruct (while_follows more s1 Hopen)
        as (n2 & s2 & _ & Hf2 & _ & Hend2).
      destruct Hf2 as (_ & _ & _ & _ & _ & R & T & V & _).
      exists (map fst (samples (incoming n2 (rx s1)))),
             (map snd (samples (incoming n2 (rx s1)))).
      destruct Hend2 as [[H2 _]|[H2 _]]; rewrite H2; simpl;
        rewrite !length_map; repeat split; auto; lia.
  - rewrite !(acquisition_refused _ s Hn). simpl.
    exists [], []. rewrite !app_nil_r. auto.
Qed.

End SessionProperties.

(** ** More on parsing a line *)

Module ParsingProperties.
Import Text PyFloat Lab0 Run ParsingClaims.
Local Open Scope N_scope.

Local Abbreviation nocomma := (fun c : N => negb (c =? comma)).
Local Abbreviation ascii := (fun c : N => c <? 0x80).

Lemma split_never_empty (s : str) : split comma s <> [].
Proof.
  destruct s as [|c r]; simpl; [discriminate|].
  destruct (c =? comma); [discriminate|].
  destruct (split comma r); discriminate.
Qed.

(** The first field of a split has no comma, and the other fields are the
    split of what follows the first comma. *)
Lemma split_shape (s : str) :
  forall (f : str) (fs : list str),
    split comma s = f :: fs ->
    forallb nocomma f = true
    /\ match fs with
       | [] => s = f
       | _ :: _ => exists r, s = f ++ comma :: r /\ split comma r = fs
       end.
Proof.
  induction s as [|c r IH]; intros f fs H; simpl in H.
  - injection H as <- <-. split; reflexivity.
  - destruct (c =? comma) eqn:E.
    + injection H as <- <-. split; [reflexivity|].
      destruct (split comma r) as [|g gs] eqn:Es;
        [exfalso; now apply (split_never_empty r)|].
      exists r. apply N.eqb_eq in E. subst c. split; [reflexivity|exact Es].
    + destruct (split comma r) as [|g gs] eqn:Es;
        [exfalso; now apply (split_never_empty r)|].
      injection H as <- <-.
      destruct (IH g gs eq_refl) as [Hg Hs].
      split; [simpl; now rewrite E|].
      destruct gs as [|g' gs'].
      * now subst r.
      * destruct Hs as (r' & -> & Hr'). exists r'. split; [reflexivity|exact Hr'].
Qed.

(** X7: a decoded line yields the sample [(a, c)] exactly when, once
    stripped, it is two fields around one comma, neither holding a comma,
    the first converting to [a] and the second to [c] under [float]. No
    other text is accepted: not a line without a comma, not one with two
    commas, not one with an empty or non-numeric field. *)
Theorem accepted_text_is_two_float_fields (t : str) (a c : pyfloat) :
  parse_text t = Some (a, c)
  <-> exists x y : str,
        strip t = x ++ comma :: y
        /\ forallb nocomma x = true /\ forallb nocomma y = true
        /\ float x = Some a /\ float y = Some c.
Proof.
  unfold parse_text. split.
  - destruct (split comma (strip t)) as [|x [|y [|z fs]]] eqn:Es;
      try discriminate.
    destruct (float x) as [a'|] eqn:Fx; [|discriminate].
    destruct (float y) as [c'|] eqn:Fy; [|discriminate].
    intros H. injection H as <- <-.
    destruct (split_shape _ _ _ Es) as [Nx (r & Hs & Hr)].
    destruct (split_shape _ _ _ Hr) as [Ny Hy]. subst r.
    exists x, y. auto.
  - intros (x & y & Hs & Nx & Ny & Fx & Fy).
    rewrite Hs, (split_at x y Nx), (split_plain y Ny), Fx, Fy. reflexivity.
Qed.

(** One step of the decoder. *)
Lemma utf8_cons (b0 : N) (r0 : list N) :
  utf8 (b0 :: r0)
  = if b0 <? 0x80 then option_map (cons b0) (utf8 r0)
    else if (0xC0 <=? b0) && (b0 <? 0xE0) then
      match r0 with
      | b1 :: r1 =>
        let cp := N.shiftl (N.land b0 0x1F) 6 + low6 b1 in
        if continuation b1 && scalar_ok 0x80 cp
        then option_map (cons cp) (utf8 r1) else None
      | _ => None
      end
    else if (0xE0 <=? b0) && (b0 <? 0xF0) then
      match r0 with
      | b1 :: b2 :: r2 =>
        let cp := N.shiftl (N.land b0 0x0F) 12 + N.shiftl (low6 b1) 6
                  + low6 b2 in
        if continuation b1 && continuation b2 && scalar_ok 0x800 cp
        then option_map (cons cp) (utf8 r2) else None
      | _ => None
      end
    else if (0xF0 <=? b0) && (b0 <? 0xF8) then
      match r0 with
      | b1 :: b2 :: b3 :: r3 =>
        let cp := N.shiftl (N.land b0 0x07) 18 + N.shiftl (low6 b1) 12
                  + N.shiftl (low6 b2) 6 + low6 b3 in
        if continuation b1 && continuation b2 && continuation b3
           && scalar_ok 0x10000 cp
        then option_map (cons cp) (utf8 r3) else None
      | _ => None
      end
    else None.
Proof. reflexivity. Qed.

Lemma ascii_not_continuation (c : N) : ascii c = true -> continuation c = false.
Proof.
  intros H. apply N.ltb_lt in H. unfold continuation.
  replace (0x80 <=? c) with false; [reflexivity|].
  symmetry. apply N.leb_gt. exact H.
Qed.

(** An ASCII byte after any bytes is decoded on its own; it completes no
    unfinished sequence. *)
Lemma utf8_ascii_last (c : N) :
  ascii c = true ->
  forall (n : nat) (a : list N),
    (List.length a <= n)%nat ->
    utf8 (a ++ [c]) = option_map (fun t => t ++ [c]) (utf8 a).
Proof.
  intros Hc. pose proof (ascii_not_continuation c Hc) as Hk.
  assert (Hnil : utf8 ([] ++ [c]) = option_map (fun t => t ++ [c]) (utf8 [])).
  { simpl. rewrite Hc. reflexivity. }
  induction n as [|n IH]; intros a Hlen;
    (destruct a as [|b0 r0]; [exact Hnil|]); simpl in Hlen; [lia|].
  change ((b0 :: r0) ++ [c]) with (b0 :: (r0 ++ [c])).
  rewrite !utf8_cons.
  destruct (b0 <? 0x80).
  { rewrite IH by lia. destruct (utf8 r0); reflexivity. }
  destruct ((0xC0 <=? b0) && (b0 <? 0xE0)).
  { destruct r0 as [|b1 r1]; simpl app.
    - cbv beta iota zeta. rewrite Hk. reflexivity.
    - cbv beta iota zeta.
      destruct (continuation b1 && scalar_ok 128
                  (N.shiftl (N.land b0 31) 6 + low6 b1)); [|reflexivity].
      simpl in Hlen. rewrite IH by lia. destruct (utf8 r1); reflexivity. }
  destruct ((0xE0 <=? b0) && (b0 <? 0xF0)).
  { destruct r0 as [|b1 [|b2 r2]]; simpl app.
    - reflexivity.
    - cbv beta iota zeta. rewrite Hk, andb_false_r. reflexivity.
    - cbv beta iota zeta.
      destruct (continuation b1 && continuation b2
                && scalar_ok 2048
                     (N.shiftl (N.land b0 15) 12 + N.shiftl (low6 b1) 6
                      + low6 b2)); [|reflexivity].
      simpl in Hlen. rewrite IH by lia. destruct (utf8 r2); reflexivity. }
  destruct ((0xF0 <=? b0) && (b0 <? 0xF8)); [|reflexivity].
  destruct r0 as [|b1 [|b2 [|b3 r3]]]; simpl app.
  - reflexivity.
  - reflexivity.
  - cbv beta iota zeta. rewrite Hk, andb_false_r. reflexivity.
  - cbv beta iota zeta.
    destruct (continuation b1 && continuation b2 && continuation b3
              && scalar_ok 65536
                   (N.shiftl (N.land b0 7) 18 + N.shiftl (low6 b1) 12
                    + N.shiftl (low6 b2) 6 + low6 b3)); [|reflexivity].
    simpl in Hlen. rewrite IH by lia. destruct (utf8 r3); reflexivity.
Qed.

Lemma utf8_ascii_suffix (w : str) :
  forallb ascii w = true ->
  forall a : list N, utf8 (a ++ w) = option_map (fun t => t ++ w) (utf8 a).
Proof.
  induction w as [|c w IH]; intros Hw a.
  - rewrite app_nil_r. destruct (utf8 a) as [t|]; simpl; [|reflexivity].
    now rewrite app_nil_r.
  - simpl in Hw. apply andb_prop in Hw as [Hc Hw].
    change (a ++ c :: w) with (a ++ [c] ++ w). rewrite app_assoc.
    rewrite (IH Hw), (utf8_ascii_last c Hc (List.length a) a (le_n _)).
    destruct (utf8 a) as [t|]; simpl; [|reflexivity].
    now rewrite <- app_assoc.
Qed.

Lemma utf8_ascii_prefix (w : str) (a : list N) :
  forallb ascii w = true ->
  utf8 (w ++ a) = option_map (app w) (utf8 a).
Proof.
  induction w as [|c w IH]; intros Hw.
  - simpl. now destruct (utf8 a).
  - simpl in Hw. apply andb_prop in Hw as [Hc Hw].
    change ((c :: w) ++ a) with (c :: (w ++ a)).
    rewrite utf8_cons, Hc, (IH Hw). now destruct (utf8 a).
Qed.

(** [strip] absorbs whitespace on both sides. *)
Lemma strip_pad (w1 t w2 : str) :
  forallb isspace w1 = true -> forallb isspace w2 = true ->
  strip (w1 ++ t ++ w2) = strip t.
Proof.
  intros H1 H2. unfold strip.
  rewrite (lstrip_all isspace w1 (t ++ w2) H1).
  rewrite (lstrip_app isspace t w2 H2).
  destruct (forallb isspace t) eqn:Et.
  - now rewrite (lstrip_only isspace t Et).
  - now rewrite rstrip_all.
Qed.

Lemma blank_bytes (w : bytes) :
  forallb blank w = true ->
  forallb ascii (map Byte.to_N w) = true
  /\ forallb isspace (map Byte.to_N w) = true.
Proof.
  induction w as [|x w IH]; simpl; intros H; [auto|].
  apply andb_prop in H as [Hx Hw]. unfold blank in Hx.
  apply andb_prop in Hx as [Ha Hs]. destruct (IH Hw) as [IHa IHs].
  now rewrite Ha, Hs, IHa, IHs.
Qed.

(** X8: line terminators and blanks around a line do not matter. For any
    bytes [l] at all (well-formed, malformed or undecodable), putting
    ASCII whitespace bytes (CR, LF, tab, space, ...) before and after
    them gives the same sample, or the same rejection, as [l] alone. *)
Theorem surrounding_blanks_do_not_matter (w1 l w2 : bytes) :
  forallb blank w1 = true -> forallb blank w2 = true ->
  parse_line (w1 ++ l ++ w2) = parse_line l.
Proof.
  intros H1 H2.
  destruct (blank_bytes w1 H1) as [A1 S1].
  destruct (blank_bytes w2 H2) as [A2 S2].
  unfold parse_line, decode. rewrite !map_app.
  rewrite (utf8_ascii_prefix _ _ A1), (utf8_ascii_suffix _ A2).
  destruct (utf8 (map Byte.to_N l)) as [t|]; simpl; [|reflexivity].
  unfold parse_text. now rewrite (strip_pad _ t _ S1 S2).
Qed.

(** X8 on a line sent as [" 12,1.5\r\n"]. *)
Lemma surrounding_blanks_do_not_matter_witness :
  forallb blank [Byte.x20] = true
  /\ forallb blank [Byte.x0d; Byte.x0a] = true
  /\ parse_line ([Byte.x20] ++ b "12,1.5" ++ [Byte.x0d; Byte.x0a])
     = parse_line (b "12,1.5").
Proof.
  assert (H1 : forallb blank [Byte.x20] = true) by reflexivity.
  assert (H2 : forallb blank [Byte.x0d; Byte.x0a] = true) by reflexivity.
  split; [exact H1|]. split; [exact H2|].
  exact (surrounding_blanks_do_not_matter _ (b "12,1.5") _ H1 H2).
Defined.

End ParsingProperties.

(** ** What the console shows *)

Module ConsoleProperties.
Import Text PyFloat Exn Machine IO Lab0 Run LoopFacts SessionFacts.
Local Open Scope Z_scope.

Local Abbreviation cond := (fun s : state => stop_condition s <=? 1990).

(** One iteration prints the [echo] of the line it read. *)
Lemma loop_body_console (s : state) :
  port_open s = true ->
  console (final (loop_body s)) = console s ++ echo (hd [] (rx s)).
Proof.
  intros Hopen. unfold echo, parse_text.
  unfold loop_body, loop_body_on, try_except, bind.
  rewrite (readline_open s Hopen).
  destruct (decode (hd [] (rx s))) as [t|]; simpl; [|reflexivity].
  destruct (split comma (strip t)) as [|x [|y [|z fs]]]; simpl;
    try (now rewrite <- app_assoc).
  destruct (float x) as [tf|]; simpl;
    [destruct (float y) as [vf|]; simpl|];
    try reflexivity; now rewrite <- app_assoc.
Qed.

(** The loop prints the [echo] of each line it reads, in order. *)
Lemma while_console (fuel : nat) :
  forall s : state,
    port_open s = true ->
    exists n : nat,
      reads (final (while fuel cond loop_body s)) = (reads s + n)%nat
      /\ console (final (while fuel cond loop_body s))
         = console s ++ flat_map echo (incoming n (rx s)).
Proof.
  induction fuel as [|fuel IH]; intros s Hopen; simpl while.
  - exists O. destruct (stop_condition s <=? 1990); simpl;
      now rewrite app_nil_r, Nat.add_0_r.
  - destruct (stop_condition s <=? 1990).
    + pose proof (loop_body_console s Hopen) as Hc.
      destruct (loop_body_step s Hopen) as (s1 & Hrun & Hf & Hrx).
      rewrite Hrun in *. simpl final in Hc.
      destruct Hf as (_ & O1 & _ & _ & _ & R1 & _).
      destruct (IH s1 O1) as (n & Hr & Hk).
      exists (S n). rewrite Hr, Hk, R1, Hc, Hrx. simpl.
      rewrite <- app_assoc. split; [lia|reflexivity].
    + exists O. simpl. now rewrite app_nil_r, Nat.add_0_r.
Qed.

(** X9: the console of an invocation that could open the port. After
    what was printed before come, for each line read and in order, its
    stripped text when it decodes (an undecodable line is not echoed)
    and the diagnostic when it yields no sample (a time-out is echoed
    as an empty line and diagnosed); a session that returned then
    prints the two lists, and nothing else is ever printed. *)
Theorem console_is_the_transcript (s : state) (fuel : nat) :
  In serial_port (ports s) ->
  console (final (acquisition fuel s))
  = console s
    ++ flat_map echo
         (incoming (reads (final (acquisition fuel s)) - reads s) (rx s))
    ++ (if returned (acquisition fuel s)
        then [Floats (times (final (acquisition fuel s)));
              Floats (volts (final (acquisition fuel s)))]
        else []).
Proof.
  intros Hin. rewrite (acquisition_rearmed fuel s Hin).
  destruct (while_console fuel (rearmed s) eq_refl) as (n & Hr & Hk).
  destruct (while_follows fuel (rearmed s) eq_refl)
    as (n' & s1 & _ & _ & _ & Hend).
  unfold bind.
  destruct Hend as [[H _]|[H _]]; rewrite H in *; simpl in Hr, Hk |- *.
  - replace (reads s1 - reads s)%nat with n by lia.
    rewrite Hk, <- !app_assoc. reflexivity.
  - replace (reads s1 - reads s)%nat with n by lia.
    rewrite Hk, app_nil_r. reflexivity.
Qed.

(** X9 on the scenario's five lines. *)
Lemma console_is_the_transcript_witness :
  In serial_port (ports (lab scenario))
  /\ console (final (acquisition 5 (lab scenario)))
     = [Line (text "12,1.5");
        Line (text "garbage"); diagnostic;
        Line (text "30,"); diagnostic;
        Line (text "abc,def"); diagnostic;
        Line (text "45,2.1")].
Proof.
  assert (H : In serial_port (ports (lab scenario))) by (left; reflexivity).
  split; [exact H|].
  rewrite (console_is_the_transcript (lab scenario) 5 H).
  vm_compute. reflexivity.
Defined.

End ConsoleProperties.

(** ** The theoretical series of a run *)

Module RunClaims.
Import Text PyFloat Exn Machine IO Lab0 Run LoopFacts SessionFacts.
Local Open Scope Z_scope.

(** C7, as stated, fails: not every run has a theoretical series. Fed
    the five lines of the scenario the function is still in its loop
    after a thousand iterations and has plotted nothing; with the port
    unavailable it raises before computing anything. *)
Lemma no_series_without_full_acquisition :
  unfinished (plot_example 1000 "Time (ms)" "Voltage (V)" (lab scenario))
  = true
  /\ axes (final (plot_example 1000 "Time (ms)" "Voltage (V)"
                               (lab scenario))) = []
  /\ raised_with (plot_example 1000 "Time (ms)" "Voltage (V)"
                               (boot ["COM3"%string] two_hundred))
     = Some SerialException
  /\ axes (final (plot_example 1000 "Time (ms)" "Voltage (V)"
                               (boot ["COM3"%string] two_hundred))) = [].
Proof. repeat split; vm_compute; reflexivity. Qed.

(** C7, amended: the theoretical times always number 2000, and a run
    has a theoretical series exactly when its acquisition returned,
    which it does only with 200 observed samples: on every link and
    every stream, when [plot_example] returns the axes hold the 2000
    theoretical voltages against the 2000 theoretical times, then the
    200 observed points, the labels, the grid and the draw; when it
    raises or is still in its loop no theoretical series was computed
    and the axes are empty. *)
Theorem theoretical_series_follows_full_acquisition
        (l : Serial.link) (available : list string) (lines : list bytes)
        (fuel : nat) (xlabel ylabel : string) :
  List.length Theory.theory_times = 2000%nat
  /\ match plot_example_on l fuel xlabel ylabel (boot available lines) with
     | Returned _ s =>
       exists vs : list real,
         Theory.theory_volts = inr vs
         /\ List.length vs = 2000%nat
         /\ axes s = [Plot_line Theory.theory_times vs;
                      Plot_points (times s) (volts s);
                      Set_xlabel xlabel; Set_ylabel ylabel; Grid true; Draw]
         /\ List.length (times s) = 200%nat
         /\ List.length (volts s) = 200%nat
     | Raised _ s => axes s = []
     | Unfinished s => axes s = []
     end.
Proof.
  split; [apply TheoryFacts.range_length|].
  rewrite LinkFacts.plot_example_on_outcome.
  pose proof (LinkFacts.acquisition_on_outcome l fuel available lines) as H.
  destruct (acquisition_on l fuel (boot available lines)) as [[] s|e s|s].
  - destruct H as (Hin & _ & (_ & _ & _ & _ & A) & Hst).
    exists (map (model Theory.VMAX Theory.R Theory.C) Theory.theory_times).
    split; [exact TheoryFacts.theory_volts_value|].
    split; [rewrite length_map; apply TheoryFacts.range_length|].
    split; [simpl; rewrite A; reflexivity|].
    destruct (acquisition_outcome fuel (boot available lines) Hin)
      as (n & s1 & _ & Hf & _ & Hb & _ & Hend).
    destruct Hend as [[Hr Hgt]|[Hu _]]; rewrite Hst in *;
      [|discriminate Hu].
    injection Hr as <-.
    destruct Hf as (_ & _ & _ & _ & _ & _ & T & V & C).
    unfold rearmed in T, V, C.
    cbn [times volts stop_condition set_stop_condition set_volts set_times
         set_tx set_port_open set_opens app] in T, V, C.
    rewrite Z.add_0_l in C. rewrite C in Hb, Hgt.
    cbn [times volts set_port_open set_axes].
    rewrite T, V, !length_map. lia.
  - destruct H as (_ & [(_ & ->)|[(_ & _ & ->)|(_ & _ & K & _)]]);
      [reflexivity|reflexivity|].
    now destruct K as (_ & _ & _ & _ & A).
  - now destruct H as (_ & _ & (_ & _ & _ & _ & A)).
Qed.

End RunClaims.
